(** * ARSpace: surface detection and model placement

    A shallow embedding of the [ARSpace] class of [src/app.js] and of its
    second revision [src/unnamed/part_000].  The class keeps a handful of
    fields, reacts to DOM and WebXR events, and runs [render] once per
    animation frame.  The embedding follows that shape:

    - THREE objects live in a store ([heap]); a JavaScript reference is an
      index into it, so that [scene.children], [placedModels], [model] and
      [reticle] can alias the same object, as they do in the source;
    - every event handler is a function on the record [ARSpace];
    - [handleHitTest] is an [async] method.  Its body up to the [await] runs
      inside [render]; the rest runs when the promise settles.  The two
      halves are [handleHitTest] and [handleHitTest_resume], and the
      suspended calls are kept in the field [pending];
    - [loadModel] has a [try]/[catch]; it is written in a small state and
      exception monad.

    DOM writes ([classList], [textContent], status timers), console output
    and the renderer/camera are sinks that no modelled code reads back; they
    are left out.  Lights and the ground plane are added to the scene once by
    [initThreeJS] and never referenced again; the modelled child list holds
    the remaining children. *)

From Stdlib Require Import QArith String.
From stdpp Require Import base list.

(** ** Values of the rendering engine *)

Record Vector3 := mkVector3 { vx : Q; vy : Q; vz : Q }.
Record Quaternion := mkQuaternion { qx : Q; qy : Q; qz : Q; qw : Q }.

(** [pose.transform.matrix]: sixteen numbers, column-major. *)
Definition Matrix4 := list Q.

(** The three engine computations the class calls on poses.  They belong to
    THREE, not to this repository, and stay abstract:
    [Vector3.setFromMatrixPosition], [Quaternion.setFromRotationMatrix] and the
    effect of [rotation.y += speed] on the orientation of an object. *)
Class Engine := {
  setFromMatrixPosition : Matrix4 -> Vector3;
  setFromRotationMatrix : Matrix4 -> Quaternion;
  addRotationY : Q -> Quaternion -> Quaternion
}.

Inductive Shape :=
  | RingGeometry           (* the reticle mesh *)
  | RobotGroup             (* createProceduralModel, app.js *)
  | IcosahedronGeometry    (* createFallbackIcosahedron, part_000 *)
  | GltfScene.             (* gltf.scene of test.glb, part_000 *)

(** Of a THREE object the record keeps what the class reads, writes or
    copies: pose, visibility and [userData].  Geometry, materials, children,
    shadow flags and scale go with [shape]. *)
Record Object3D := mkObject3D {
  shape : Shape;
  position : Vector3;
  quaternion : Quaternion;
  visible : bool;
  rotationSpeed : option Q;   (* userData.rotationSpeed; None is undefined *)
  isPlaced : bool             (* userData.isPlaced *)
}.

Definition with_position (p : Vector3) (o : Object3D) : Object3D :=
  mkObject3D (shape o) p (quaternion o) (visible o) (rotationSpeed o) (isPlaced o).
Definition with_quaternion (q : Quaternion) (o : Object3D) : Object3D :=
  mkObject3D (shape o) (position o) q (visible o) (rotationSpeed o) (isPlaced o).
Definition with_visible (b : bool) (o : Object3D) : Object3D :=
  mkObject3D (shape o) (position o) (quaternion o) b (rotationSpeed o) (isPlaced o).
Definition with_rotationSpeed (r : option Q) (o : Object3D) : Object3D :=
  mkObject3D (shape o) (position o) (quaternion o) (visible o) r (isPlaced o).
Definition with_isPlaced (b : bool) (o : Object3D) : Object3D :=
  mkObject3D (shape o) (position o) (quaternion o) (visible o) (rotationSpeed o) b.

(** [new THREE.Mesh(..)] / [new THREE.Group()]: at the origin, identity
    orientation, visible, empty [userData]. *)
Definition newObject3D (sh : Shape) : Object3D :=
  mkObject3D sh (mkVector3 0 0 0) (mkQuaternion 0 0 0 1) true None false.

(** [Object3D.clone()] copies every modelled attribute into a new object. *)
Definition clone (o : Object3D) : Object3D := o.

(** Truthiness of [userData.rotationSpeed]. *)
Definition truthy (r : option Q) : bool :=
  match r with
  | Some x => negb (Qnum x =? 0)%Z
  | None => false
  end.

(** ** The scene graph *)

(** A reference to an object: its index in the store. *)
Abbreviation ref := nat (only parsing).

Definition includes (children : list ref) (r : ref) : bool :=
  existsb (Nat.eqb r) children.

(** [Array.indexOf] then [splice]: the first occurrence goes. *)
Fixpoint remove_first (r : ref) (children : list ref) : list ref :=
  match children with
  | [] => []
  | x :: rest => if Nat.eqb x r then rest else x :: remove_first r rest
  end.

Definition scene_remove (r : ref) (children : list ref) : list ref :=
  remove_first r children.

(** [objects.forEach(o => scene.remove(o))] *)
Definition remove_each (objects children : list ref) : list ref :=
  fold_left (fun rest o => scene_remove o rest) objects children.

(** [scene.add(o)] detaches [o] from its parent before pushing it.  The scene
    is the only parent an object of this program ever has. *)
Definition scene_add (r : ref) (children : list ref) : list ref :=
  remove_first r children ++ [r].

(** ** The WebXR platform *)

Definition XRSession := nat.
Definition XRHitTestSource := nat.

(** A hit-test result, seen through [hit.getPose(referenceSpace)]: [None] is
    a null pose, [Some m] a pose whose [transform.matrix] is [m]. *)
Definition XRHitTestResult := option Matrix4.

Record XRFrame := mkXRFrame {
  frame_session : XRSession;
  getHitTestResults : XRHitTestSource -> list XRHitTestResult
}.

(** How the promise of [session.requestHitTestSource] settles. *)
Inductive Settlement :=
  | Resolved (source : XRHitTestSource)
  | Rejected.

(** ** The fields of the class *)

Record ARSpace := mkARSpace {
  heap : list Object3D;
  scene_children : list ref;
  model : option ref;
  placedModels : list ref;
  reticle : ref;
  hitTestSource : option XRHitTestSource;
  hitTestSourceRequested : bool;
  arSession : option XRSession;
  isARSupported : bool;
  isLoading : bool;
  modelType : option string;          (* part_000 only *)
  pending : list XRFrame;             (* calls of handleHitTest suspended at the await *)
  requestLog : list XRSession         (* calls of session.requestHitTestSource, oldest first *)
}.

Definition set_heap (h : list Object3D) (s : ARSpace) : ARSpace :=
  mkARSpace h (scene_children s) (model s) (placedModels s) (reticle s)
    (hitTestSource s) (hitTestSourceRequested s) (arSession s) (isARSupported s)
    (isLoading s) (modelType s) (pending s) (requestLog s).
Definition set_scene_children (c : list ref) (s : ARSpace) : ARSpace :=
  mkARSpace (heap s) c (model s) (placedModels s) (reticle s)
    (hitTestSource s) (hitTestSourceRequested s) (arSession s) (isARSupported s)
    (isLoading s) (modelType s) (pending s) (requestLog s).
Definition set_model (m : option ref) (s : ARSpace) : ARSpace :=
  mkARSpace (heap s) (scene_children s) m (placedModels s) (reticle s)
    (hitTestSource s) (hitTestSourceRequested s) (arSession s) (isARSupported s)
    (isLoading s) (modelType s) (pending s) (requestLog s).
Definition set_placedModels (p : list ref) (s : ARSpace) : ARSpace :=
  mkARSpace (heap s) (scene_children s) (model s) p (reticle s)
    (hitTestSource s) (hitTestSourceRequested s) (arSession s) (isARSupported s)
    (isLoading s) (modelType s) (pending s) (requestLog s).
Definition set_hitTestSource (h : option XRHitTestSource) (s : ARSpace) : ARSpace :=
  mkARSpace (heap s) (scene_children s) (model s) (placedModels s) (reticle s)
    h (hitTestSourceRequested s) (arSession s) (isARSupported s)
    (isLoading s) (modelType s) (pending s) (requestLog s).
Definition set_hitTestSourceRequested (b : bool) (s : ARSpace) : ARSpace :=
  mkARSpace (heap s) (scene_children s) (model s) (placedModels s) (reticle s)
    (hitTestSource s) b (arSession s) (isARSupported s)
    (isLoading s) (modelType s) (pending s) (requestLog s).
Definition set_arSession (a : option XRSession) (s : ARSpace) : ARSpace :=
  mkARSpace (heap s) (scene_children s) (model s) (placedModels s) (reticle s)
    (hitTestSource s) (hitTestSourceRequested s) a (isARSupported s)
    (isLoading s) (modelType s) (pending s) (requestLog s).
Definition set_isARSupported (b : bool) (s : ARSpace) : ARSpace :=
  mkARSpace (heap s) (scene_children s) (model s) (placedModels s) (reticle s)
    (hitTestSource s) (hitTestSourceRequested s) (arSession s) b
    (isLoading s) (modelType s) (pending s) (requestLog s).
Definition set_isLoading (b : bool) (s : ARSpace) : ARSpace :=
  mkARSpace (heap s) (scene_children s) (model s) (placedModels s) (reticle s)
    (hitTestSource s) (hitTestSourceRequested s) (arSession s) (isARSupported s)
    b (modelType s) (pending s) (requestLog s).
Definition set_modelType (t : option string) (s : ARSpace) : ARSpace :=
  mkARSpace (heap s) (scene_children s) (model s) (placedModels s) (reticle s)
    (hitTestSource s) (hitTestSourceRequested s) (arSession s) (isARSupported s)
    (isLoading s) t (pending s) (requestLog s).
Definition set_pending (p : list XRFrame) (s : ARSpace) : ARSpace :=
  mkARSpace (heap s) (scene_children s) (model s) (placedModels s) (reticle s)
    (hitTestSource s) (hitTestSourceRequested s) (arSession s) (isARSupported s)
    (isLoading s) (modelType s) p (requestLog s).
Definition set_requestLog (l : list XRSession) (s : ARSpace) : ARSpace :=
  mkARSpace (heap s) (scene_children s) (model s) (placedModels s) (reticle s)
    (hitTestSource s) (hitTestSourceRequested s) (arSession s) (isARSupported s)
    (isLoading s) (modelType s) (pending s) l.

(** [this.reticle.visible] *)
Definition reticle_visible (s : ARSpace) : bool :=
  match heap s !! reticle s with
  | Some o => visible o
  | None => false
  end.

(** In-place update of the object behind a reference. *)
Definition update_object (r : ref) (f : Object3D -> Object3D) (s : ARSpace) : ARSpace :=
  set_heap (alter f r (heap s)) s.

(** The two revisions of the file. *)
Inductive SourceFile := app_js | part_000.

(** ** A state and exception monad for [loadModel] *)

Inductive outcome (A : Type) :=
  | Returns (a : A)
  | Throws (error : string).
Arguments Returns {A} a.
Arguments Throws {A} error.

Definition M (A : Type) := ARSpace -> outcome A * ARSpace.

Definition ret {A} (a : A) : M A := fun s => (Returns a, s).
Definition throw {A} (e : string) : M A := fun s => (Throws e, s).
Definition bind {A B} (m : M A) (k : A -> M B) : M B :=
  fun s => match m s with
           | (Returns a, s') => k a s'
           | (Throws e, s') => (Throws e, s')
           end.
Definition modify (f : ARSpace -> ARSpace) : M unit := fun s => (Returns tt, f s).
Definition gets {A} (f : ARSpace -> A) : M A := fun s => (Returns (f s), s).

(** [try { body } catch (error) { handler }]: what [body] wrote before it
    threw stays written. *)
Definition try_catch {A} (body : M A) (handler : string -> M A) : M A :=
  fun s => match body s with
           | (Returns a, s') => (Returns a, s')
           | (Throws e, s') => handler e s'
           end.

Notation "'do' x <- m ; k" := (bind m (fun x => k))
  (at level 10, x name, m at level 100, k at level 200,
   format "'[v' 'do'  x  <-  m ; '/' k ']'").

(** [new THREE.X(..)]: a new object in the store; its reference is returned. *)
Definition new_object (o : Object3D) : M ref :=
  fun s => (Returns (length (heap s)), set_heap (heap s ++ [o]) s).

(** A field holding an object or [null]/[undefined]. *)
Definition non_null {A} (field : option A) : bool :=
  match field with
  | Some _ => true
  | None => false
  end.

(** ** Start-up: [constructor], [initThreeJS], [loadModel], [checkARSupport] *)

(** The fields as [constructor] and [initThreeJS] leave them.  [createReticle]
    makes the ring mesh, hides it and adds it to the scene. *)
Definition createReticle : Object3D := with_visible false (newObject3D RingGeometry).

Definition initThreeJS : ARSpace :=
  mkARSpace [createReticle] (scene_add 0 []) None [] 0 None false None false false
    None [] [].

(** [createProceduralModel] of app.js: the robot group, moved to (0, -0.5, 0),
    becomes [this.model] and is added to the scene. *)
Definition createProceduralModel : M unit :=
  do robotGroup <- new_object (newObject3D RobotGroup);
  do _ <- modify (update_object robotGroup (with_position (mkVector3 0 (-0.5) 0)));
  do _ <- modify (set_model (Some robotGroup));
  modify (fun s => set_scene_children (scene_add robotGroup (scene_children s)) s).

(** [createFallbackIcosahedron] of part_000. *)
Definition createFallbackIcosahedron : M unit :=
  do _ <- modify (set_modelType (Some "icosahedron"%string));
  do mesh <- new_object (newObject3D IcosahedronGeometry);
  do _ <- modify (set_model (Some mesh));
  do _ <- modify (update_object mesh (with_position (mkVector3 0 0 0)));
  modify (update_object mesh (with_rotationSpeed (Some 0.01%Q))).

(** How the loading of test.glb goes.  [loader.load('test.glb', resolve, ..,
    reject)] calls [resolve] with a gltf whose [scene] is an object or
    undefined, or it calls [reject].  The class [THREE.GLTFLoader] itself comes
    from an add-on script of the page; when that is missing there is no loader
    to call. *)
Inductive LoadOutcome :=
  | LoadResolved (gltf_scene : option Object3D)
  | LoadRejected
  | LoaderMissing.

(** [const loader = new THREE.GLTFLoader()] *)
Definition new_GLTFLoader (load : LoadOutcome) : M unit :=
  match load with
  | LoaderMissing => throw "TypeError: THREE.GLTFLoader is not a constructor"
  | _ => ret tt
  end.

(** [await new Promise((resolve, reject) => loader.load(..))] *)
Definition awaitLoad (load : LoadOutcome) : M (option Object3D) :=
  match load with
  | LoadResolved gltf_scene => ret gltf_scene
  | LoadRejected => throw "GLB loading failed"
  | LoaderMissing => throw "TypeError: loader is undefined"
  end.

(** [this.model = gltf.scene] *)
Definition assign_model (gltf_scene : option Object3D) : M unit :=
  match gltf_scene with
  | Some o => do r <- new_object o; modify (set_model (Some r))
  | None => modify (set_model None)
  end.

(** A method call on [this.model]: a TypeError when the field is undefined. *)
Definition this_model : M ref :=
  do m <- gets model;
  match m with
  | Some r => ret r
  | None => throw "TypeError: this.model is undefined"
  end.

(** [loadModel].  app.js builds the robot and has no loader.  part_000 makes
    the loader before the [try] and awaits it inside; on success [gltf.scene]
    becomes the model, is traversed (shadows), scaled and moved to the origin;
    the [catch] builds the icosahedron; after the [try] the model, if any, is
    added to the scene. *)
Definition loadModel (file : SourceFile) (load : LoadOutcome) : M unit :=
  match file with
  | app_js =>
      do _ <- modify (set_isLoading true);
      do _ <- createProceduralModel;
      modify (set_isLoading false)
  | part_000 =>
      do _ <- modify (set_isLoading true);
      do _ <- new_GLTFLoader load;
      do _ <- try_catch
                (do gltf_scene <- awaitLoad load;
                 do _ <- modify (set_modelType (Some "glb"%string));
                 do _ <- assign_model gltf_scene;
                 do m <- this_model;      (* this.model.traverse(..) *)
                 modify (update_object m (with_position (mkVector3 0 0 0))))
                (fun _ => createFallbackIcosahedron);
      do m <- gets model;
      do _ <- match m with
              | Some r => modify (fun s => set_scene_children (scene_add r (scene_children s)) s)
              | None => ret tt
              end;
      modify (set_isLoading false)
  end.

(** ['xr' in navigator] and the answer of [isSessionSupported]. *)
Inductive XRSupport :=
  | XRAbsent
  | XRAnswer (supported : bool)
  | XRFailure.

Definition checkARSupport (x : XRSupport) (s : ARSpace) : ARSpace :=
  match x with
  | XRAbsent => s
  | XRAnswer supported => set_isARSupported supported s
  | XRFailure => set_isARSupported false s
  end.

(** [init]: the listeners are registered and the render loop started only
    after [loadModel] and [checkARSupport] have returned; when [loadModel]
    throws, [init] ends there. *)
Definition init (file : SourceFile) (load : LoadOutcome) (x : XRSupport) : outcome ARSpace :=
  match loadModel file load initThreeJS with
  | (Returns _, s) => Returns (checkARSupport x s)
  | (Throws e, _) => Throws e
  end.

(** ** Session events *)

Definition onARSessionStart (s : ARSpace) : ARSpace :=
  match model s with
  | Some m =>
      if includes (scene_children s) m
      then set_scene_children (scene_remove m (scene_children s)) s
      else s
  | None => s
  end.

(** [startAR]; [session] is what [navigator.xr.requestSession] gave: a session,
    or [None] when it rejected.  [setSession] fires 'sessionstart'. *)
Definition startAR (session : option XRSession) (s : ARSpace) : ARSpace :=
  if negb (isARSupported s) then s
  else match session with
       | Some x => set_arSession (Some x) (onARSessionStart s)
       | None => s
       end.

(** The click listener of the AR button. *)
Definition arButton_click (session : option XRSession) (s : ARSpace) : ARSpace :=
  if isARSupported s then startAR session s else s.

(** [stopAR] asks the platform to end the session; the fields change when the
    platform answers with 'sessionend'. *)
Definition stopAR (s : ARSpace) : ARSpace := s.

Definition onARSessionEnd (s : ARSpace) : ARSpace :=
  (* this.placedModels.forEach(model => this.scene.remove(model)) *)
  let s1 := set_scene_children (remove_each (placedModels s) (scene_children s)) s in
  let s2 := set_placedModels [] s1 in
  let s3 := set_hitTestSource None s2 in
  let s4 := set_hitTestSourceRequested false s3 in
  match model s4 with
  | Some m =>
      if negb (includes (scene_children s4) m)
      then set_scene_children (scene_add m (scene_children s4)) s4
      else s4
  | None => s4
  end.

(** ** Placement *)

Definition onSelect (s : ARSpace) : ARSpace :=
  if negb (non_null (arSession s)) || negb (reticle_visible s) then s
  else
    match model s with
    | Some m =>
        match heap s !! m, heap s !! reticle s with
        | Some prototype, Some ret_obj =>
            let modelClone := clone prototype in
            let modelClone := with_position (position ret_obj) modelClone in
            let modelClone := with_quaternion (quaternion ret_obj) modelClone in
            let modelClone := with_rotationSpeed (Some 0.01%Q) modelClone in
            let modelClone := with_isPlaced true modelClone in
            let c := length (heap s) in
            let s1 := set_heap (heap s ++ [modelClone]) s in
            let s2 := set_scene_children (scene_add c (scene_children s1)) s1 in
            set_placedModels (placedModels s2 ++ [c]) s2
        | _, _ => s     (* a reference always points into the store *)
        end
    | None => s
    end.

(** The click listener of the canvas. *)
Definition canvas_click (file : SourceFile) (s : ARSpace) : ARSpace :=
  match file with
  | app_js => onSelect s
  | part_000 => if non_null (arSession s) then onSelect s else s
  end.

(** ** The frame loop *)

Section WithEngine.
Context {E : Engine}.

(** [handleHitTest], from [if (this.hitTestSource)] to the end. *)
Definition updateReticle (frame : XRFrame) (s : ARSpace) : ARSpace :=
  match hitTestSource s with
  | Some source =>
      match getHitTestResults frame source with
      | hit :: _ =>
          match hit with
          | Some matrix =>
              let s1 := update_object (reticle s) (with_visible true) s in
              let s2 := update_object (reticle s)
                          (with_position (setFromMatrixPosition matrix)) s1 in
              update_object (reticle s)
                (with_quaternion (setFromRotationMatrix matrix)) s2
          | None => s
          end
      | [] => update_object (reticle s) (with_visible false) s
      end
  | None => s
  end.

(** [handleHitTest] as [render] runs it.  With the flag unset the call reaches
    [await session.requestHitTestSource(..)]: the request goes out and the
    call is suspended, nothing else happens in this frame.  The flag and the
    source are written by the resumed half, below. *)
Definition handleHitTest (frame : XRFrame) (s : ARSpace) : ARSpace :=
  if negb (hitTestSourceRequested s)
  then set_pending (pending s ++ [frame])
         (set_requestLog (requestLog s ++ [frame_session frame]) s)
  else updateReticle frame s.

(** The rest of a suspended call, once its promise has settled.  The frame
    it holds is the one of the animation callback that made the call, and that
    callback has returned by now: [answers] tells whether the platform still
    answers [frame.getHitTestResults] (if it throws instead, the call ends
    there, its promise rejected and unobserved). *)
Definition handleHitTest_resume (frame : XRFrame) (r : Settlement) (answers : bool)
    (s : ARSpace) : ARSpace :=
  let s1 := match r with
            | Resolved source =>
                set_hitTestSourceRequested true (set_hitTestSource (Some source) s)
            | Rejected => s          (* catch: console.log only *)
            end in
  if answers then updateReticle frame s1 else s1.

Definition rotateY (speed : Q) (o : Object3D) : Object3D :=
  with_quaternion (addRotationY speed (quaternion o)) o.

(** [if (model.userData.rotationSpeed) model.rotation.y += model.userData.rotationSpeed] *)
Definition spin (o : Object3D) : Object3D :=
  match rotationSpeed o with
  | Some speed => if truthy (Some speed) then rotateY speed o else o
  | None => o
  end.

Definition preview_spin (file : SourceFile) (o : Object3D) : Object3D :=
  match file with
  | app_js => rotateY 0.01%Q o
  | part_000 =>
      match rotationSpeed o with
      | Some speed => if truthy (Some speed) then rotateY speed o else rotateY 0.01%Q o
      | None => rotateY 0.01%Q o
      end
  end.

(** [render]; [frame] is [renderer.xr.getFrame()], null outside a session. *)
Definition render (file : SourceFile) (frame : option XRFrame) (s : ARSpace) : ARSpace :=
  let s1 := match frame with
            | Some f => if non_null (arSession s) then handleHitTest f s else s
            | None => s
            end in
  let s2 := fold_left (fun st m => update_object m spin st) (placedModels s1) s1 in
  match model s2 with
  | Some m =>
      if includes (scene_children s2) m && negb (non_null (arSession s2))
      then update_object m (preview_spin file) s2
      else s2
  | None => s2
  end.

(** ** Events and runs *)

Inductive Event :=
  | Frame (frame : option XRFrame)            (* one turn of the animation loop *)
  | Settle (i : nat) (r : Settlement) (answers : bool)
                                              (* the i-th suspended request settles *)
  | CanvasClick
  | ARButtonClick (session : option XRSession)
  | StopARClick
  | SessionEnd.                               (* 'sessionend' *)

Definition step (file : SourceFile) (e : Event) (s : ARSpace) : ARSpace :=
  match e with
  | Frame frame => render file frame s
  | Settle i r answers =>
      match pending s !! i with
      | Some frame =>
          handleHitTest_resume frame r answers (set_pending (delete i (pending s)) s)
      | None => s
      end
  | CanvasClick => canvas_click file s
  | ARButtonClick session => arButton_click session s
  | StopARClick => stopAR s
  | SessionEnd => onARSessionEnd s
  end.

Definition run (file : SourceFile) (events : list Event) (s : ARSpace) : ARSpace :=
  fold_left (fun st e => step file e st) events s.

(** The states the program can be in: after start-up, and after any event. *)
Inductive reachable (file : SourceFile) : ARSpace -> Prop :=
  | reachable_init load x s :
      init file load x = Returns s -> reachable file s
  | reachable_step e s :
      reachable file s -> reachable file (step file e s).

End WithEngine.

(** ** Sample inputs

    A stand-in engine and a few frames, to run the model on concrete inputs.
    Every theorem below is proved for an arbitrary engine. *)

Definition sample_engine : Engine := {|
  setFromMatrixPosition := fun m => mkVector3 (nth 12 m 0%Q) (nth 13 m 0%Q) (nth 14 m 0%Q);
  setFromRotationMatrix := fun _ => mkQuaternion 0 0 0 1;
  addRotationY := fun speed q => mkQuaternion (qx q) (qy q + speed) (qz q) (qw q)
|}.

(** A pose one metre to the right and two metres ahead, upright. *)
Definition sample_matrix : Matrix4 :=
  [1; 0; 0; 0;  0; 1; 0; 0;  0; 0; 1; 0;  1; 0; -2; 1]%Q.

(** A frame of session [x] whose query finds a surface, one whose first
    result has no pose, and one that finds nothing. *)
Definition frame_hit (x : XRSession) : XRFrame :=
  mkXRFrame x (fun _ => [Some sample_matrix]).
Definition frame_null_pose (x : XRSession) : XRFrame :=
  mkXRFrame x (fun _ => [None]).
Definition frame_empty (x : XRSession) : XRFrame :=
  mkXRFrame x (fun _ => []).

(** Start-up of app.js on a device with AR, then an AR session (number 7). *)
Definition booted : ARSpace :=
  match init app_js LoadRejected (XRAnswer true) with
  | Returns s => s
  | Throws _ => initThreeJS
  end.

Definition in_session : ARSpace :=
  run (E:=sample_engine) app_js [ARButtonClick (Some 7)] booted.

(** The session has acquired its hit-test source (number 3) and the last
    frame found a surface: the reticle is showing. *)
Definition reticle_shown : ARSpace :=
  run (E:=sample_engine) app_js
    [Frame (Some (frame_hit 7)); Settle 0 (Resolved 3) false;
     Frame (Some (frame_hit 7))]
    in_session.

(** The session started and one frame rendered: the request for a hit-test
    source is out and has not settled. *)
Definition request_pending : ARSpace :=
  run (E:=sample_engine) app_js [Frame (Some (frame_empty 7))] in_session.

(** Either revision started on a device with AR, the GLB load rejected. *)
Definition started (file : SourceFile) : ARSpace :=
  match init file LoadRejected (XRAnswer true) with
  | Returns s => s
  | Throws _ => initThreeJS
  end.

(** A whole session: started, source 3 acquired, a surface found, ended. *)
Definition one_session : list Event :=
  [ARButtonClick (Some 7); Frame (Some (frame_hit 7)); Settle 0 (Resolved 3) false;
   Frame (Some (frame_hit 7)); SessionEnd].

(** The same state with the prototype missing. *)
Definition reticle_shown_no_model : ARSpace := set_model None reticle_shown.

(** ** Well-formed states

    Every reference points into the store, the prototype is there and is not
    one of the placed clones, and the scene lists no child twice. *)
Record wf (s : ARSpace) : Prop := mk_wf {
  wf_reticle : reticle s < length (heap s);
  wf_model : exists m, model s = Some m /\ m < length (heap s) /\ m ∉ placedModels s;
  wf_placed : Forall (fun p => p < length (heap s)) (placedModels s);
  wf_scene : Forall (fun c => c < length (heap s)) (scene_children s);
  wf_nodup : NoDup (scene_children s)
}.

(** Two states with the same references and as many objects: they differ in
    the attributes of objects and in the hit-test fields only. *)
Definition same_layout (s s' : ARSpace) : Prop :=
  length (heap s') = length (heap s) /\
  scene_children s' = scene_children s /\
  model s' = model s /\
  placedModels s' = placedModels s /\
  reticle s' = reticle s.

(** ** What a state change leaves of an object

    [same_tags]: shape and [userData] are kept.  [same_but_orientation]:
    everything is kept but the quaternion. *)
Definition same_tags (o o' : Object3D) : Prop :=
  shape o' = shape o /\ rotationSpeed o' = rotationSpeed o /\ isPlaced o' = isPlaced o.

Definition same_but_orientation (o o' : Object3D) : Prop :=
  same_tags o o' /\ position o' = position o /\ visible o' = visible o.

(** Every object of [s] is still in [s'], with its shape and [userData];
    all but the reticle also kept position and visibility. *)
Definition objects_kept (s s' : ARSpace) : Prop :=
  forall (i : ref) (o : Object3D),
    heap s !! i = Some o ->
    exists o', heap s' !! i = Some o' /\ same_tags o o' /\
               (i <> reticle s -> same_but_orientation o o').

(** The hit-test fields and the session fields. *)
Definition same_session_fields (s s' : ARSpace) : Prop :=
  hitTestSource s' = hitTestSource s /\
  hitTestSourceRequested s' = hitTestSourceRequested s /\
  arSession s' = arSession s /\
  isARSupported s' = isARSupported s.

(** The placed clones: each reference once, none of them the reticle or the
    prototype's, each a child of the scene, and each object tagged as
    [onSelect] tags it, with the shape of the prototype. *)
Record placed_ok (s : ARSpace) : Prop := mk_placed_ok {
  placed_nodup : NoDup (placedModels s);
  placed_not_reticle : reticle s ∉ placedModels s;
  model_not_reticle : model s <> Some (reticle s);
  placed_in_scene : forall p, p ∈ placedModels s -> p ∈ scene_children s;
  placed_tagged : forall p, p ∈ placedModels s ->
    exists o m prototype,
      heap s !! p = Some o /\ rotationSpeed o = Some 0.01%Q /\ isPlaced o = true /\
      model s = Some m /\ heap s !! m = Some prototype /\ shape o = shape prototype
}.

(** Before the first session: nothing placed, nothing requested, the reticle
    hidden and the prototype in the scene. *)
Record idle (s : ARSpace) : Prop := mk_idle {
  idle_placed : placedModels s = [];
  idle_pending : pending s = [];
  idle_requestLog : requestLog s = [];
  idle_source : hitTestSource s = None;
  idle_flag : hitTestSourceRequested s = false;
  idle_reticle : reticle_visible s = false;
  idle_model : forall m, model s = Some m -> m ∈ scene_children s
}.

(** [s'] is [s] with other attributes in some objects: the store may differ,
    every other field is the same. *)
Definition only_heap (s s' : ARSpace) : Prop := s' = set_heap (heap s') s.

(** The state right after [handleHitTest] has sent a request in [s]. *)
Definition request_sent (frame : XRFrame) (s : ARSpace) : ARSpace :=
  set_pending (pending s ++ [frame])
    (set_requestLog (requestLog s ++ [frame_session frame]) s).

(** What [render] does to the fields other than the store: a request goes
    out when there is a frame, a session and no flag. *)
Definition after_frame (frame : option XRFrame) (s : ARSpace) : ARSpace :=
  match frame with
  | Some f =>
      if non_null (arSession s) && negb (hitTestSourceRequested s)
      then request_sent f s
      else s
  | None => s
  end.

(** The clone [onSelect] makes of [prototype] at the pose of [ret_obj]. *)
Definition placed_clone (prototype ret_obj : Object3D) : Object3D :=
  with_isPlaced true
    (with_rotationSpeed (Some 0.01%Q)
       (with_quaternion (quaternion ret_obj)
          (with_position (position ret_obj) (clone prototype)))).

(** A clone has been placed in [reticle_shown]. *)
Definition model_placed : ARSpace :=
  run (E:=sample_engine) app_js [CanvasClick] reticle_shown.

(** * Properties *)

(** ** The child list of the scene *)

Lemma includes_elem_of (l : list ref) (r : ref) : includes l r = true <-> r ∈ l.
Proof.
  unfold includes. rewrite existsb_exists. split.
  - intros (x & Hx & He). apply Nat.eqb_eq in He. subst x. by apply list_elem_of_In.
  - intros Hr. exists r. split; [by apply list_elem_of_In | apply Nat.eqb_refl].
Qed.

Lemma includes_false (l : list ref) (r : ref) : includes l r = false <-> r ∉ l.
Proof.
  rewrite <- includes_elem_of. destruct (includes l r); split; congruence.
Qed.

Lemma remove_first_elem_of (r x : ref) (l : list ref) :
  x ∈ remove_first r l -> x ∈ l.
Proof.
  induction l as [|y l IH]; simpl; [done|].
  destruct (Nat.eqb_spec y r) as [->|Hne].
  - intros Hx. by apply elem_of_cons; right.
  - rewrite !elem_of_cons. intros [->|Hx]; [by left | right; auto].
Qed.

Lemma remove_first_other (r x : ref) (l : list ref) :
  x <> r -> x ∈ l -> x ∈ remove_first r l.
Proof.
  intros Hxr. induction l as [|y l IH]; simpl; [done|].
  rewrite elem_of_cons. destruct (Nat.eqb_spec y r) as [->|Hne].
  - intros [->|Hx]; [done | exact Hx].
  - rewrite elem_of_cons. intros [->|Hx]; [by left | right; auto].
Qed.

Lemma remove_first_NoDup (r : ref) (l : list ref) :
  NoDup l -> NoDup (remove_first r l).
Proof.
  induction 1 as [|y l Hy Hl IH]; simpl; [constructor|].
  destruct (Nat.eqb_spec y r); [done|].
  constructor; [|done]. intros Hin. apply Hy. by eapply remove_first_elem_of.
Qed.

Lemma remove_first_gone (r : ref) (l : list ref) :
  NoDup l -> r ∉ remove_first r l.
Proof.
  induction 1 as [|y l Hy Hl IH]; simpl; [apply not_elem_of_nil|].
  destruct (Nat.eqb_spec y r) as [->|Hne]; [done|].
  rewrite elem_of_cons. intros [->|Hin]; [done | by apply IH].
Qed.

Lemma remove_first_absent (r : ref) (l : list ref) :
  r ∉ l -> remove_first r l = l.
Proof.
  induction l as [|y l IH]; simpl; [done|].
  rewrite not_elem_of_cons. intros [Hne Hr].
  destruct (Nat.eqb_spec y r) as [->|_]; [done|]. by rewrite IH.
Qed.

Lemma scene_add_NoDup (r : ref) (l : list ref) : NoDup l -> NoDup (scene_add r l).
Proof.
  intros Hl. unfold scene_add. apply NoDup_app. split; [by apply remove_first_NoDup|].
  split; [|apply NoDup_singleton].
  intros x Hx Hx'. apply list_elem_of_singleton in Hx'. subst x.
  by apply (remove_first_gone r l).
Qed.

Lemma scene_add_new (r : ref) (l : list ref) : r ∉ l -> scene_add r l = l ++ [r].
Proof. intros Hr. unfold scene_add. by rewrite remove_first_absent. Qed.

Lemma remove_each_elem_of (ps l : list ref) (x : ref) :
  x ∈ remove_each ps l -> x ∈ l.
Proof.
  unfold remove_each. revert l. induction ps as [|p ps IH]; simpl; [done|].
  intros l Hx. apply IH in Hx. by eapply remove_first_elem_of.
Qed.

Lemma remove_each_NoDup (ps l : list ref) : NoDup l -> NoDup (remove_each ps l).
Proof.
  unfold remove_each. revert l. induction ps as [|p ps IH]; simpl; [done|].
  intros l Hl. apply IH. by apply remove_first_NoDup.
Qed.

Lemma remove_each_gone (ps l : list ref) (p : ref) :
  NoDup l -> p ∈ ps -> p ∉ remove_each ps l.
Proof.
  revert l. induction ps as [|q ps IH]; intros l Hl Hp.
  - by apply elem_of_nil in Hp.
  - change (remove_each (q :: ps) l) with (remove_each ps (remove_first q l)).
    apply elem_of_cons in Hp as [->|Hp].
    + intros Hin. apply remove_each_elem_of in Hin.
      by apply (remove_first_gone q l).
    + apply IH; [by apply remove_first_NoDup | done].
Qed.

Lemma remove_each_other (ps l : list ref) (x : ref) :
  x ∉ ps -> x ∈ l -> x ∈ remove_each ps l.
Proof.
  revert l. induction ps as [|q ps IH]; intros l Hx Hl; [done|].
  change (remove_each (q :: ps) l) with (remove_each ps (remove_first q l)).
  apply not_elem_of_cons in Hx as [Hne Hx].
  apply IH; [done|]. by apply remove_first_other.
Qed.

(** ** Layout: what the frame loop and the settled requests leave alone *)

Lemma same_layout_refl (s : ARSpace) : same_layout s s.
Proof. by repeat split. Qed.

Lemma same_layout_trans (s1 s2 s3 : ARSpace) :
  same_layout s1 s2 -> same_layout s2 s3 -> same_layout s1 s3.
Proof.
  intros (H1 & H2 & H3 & H4 & H5) (G1 & G2 & G3 & G4 & G5).
  repeat split; congruence.
Qed.

Lemma wf_same_layout (s s' : ARSpace) : wf s -> same_layout s s' -> wf s'.
Proof.
  intros [Hr Hm Hp Hs Hn] (H1 & H2 & H3 & H4 & H5).
  split; rewrite ?H1, ?H2, ?H3, ?H4, ?H5; done.
Qed.

Lemma update_object_layout (r : ref) (f : Object3D -> Object3D) (s : ARSpace) :
  same_layout s (update_object r f s).
Proof. repeat split. simpl. apply length_alter. Qed.

Lemma fold_update_object (f : Object3D -> Object3D) (ps : list ref) (s : ARSpace) :
  fold_left (fun st m => update_object m f st) ps s
  = set_heap (fold_left (fun h m => alter f m h) ps (heap s)) s.
Proof.
  revert s. induction ps as [|p ps IH]; intros s; simpl.
  - by destruct s.
  - by rewrite IH.
Qed.

Lemma fold_alter_length (f : Object3D -> Object3D) (ps : list ref) (h : list Object3D) :
  length (fold_left (fun h m => alter f m h) ps h) = length h.
Proof.
  revert h. induction ps as [|p ps IH]; intros h; simpl; [done|].
  by rewrite IH, length_alter.
Qed.

Section FrameLoop.
Context {E : Engine}.

Lemma updateReticle_layout (frame : XRFrame) (s : ARSpace) :
  same_layout s (updateReticle frame s).
Proof.
  unfold updateReticle.
  destruct (hitTestSource s) as [source|]; [|apply same_layout_refl].
  destruct (getHitTestResults frame source) as [|[matrix|] ?];
    [apply update_object_layout| |apply same_layout_refl].
  repeat split; simpl; by rewrite ?length_alter.
Qed.

Lemma handleHitTest_layout (frame : XRFrame) (s : ARSpace) :
  same_layout s (handleHitTest frame s).
Proof.
  unfold handleHitTest. destruct (hitTestSourceRequested s); simpl;
    [apply updateReticle_layout | by repeat split].
Qed.

Lemma handleHitTest_resume_layout frame r answers (s : ARSpace) :
  same_layout s (handleHitTest_resume frame r answers s).
Proof.
  unfold handleHitTest_resume.
  destruct answers; [eapply same_layout_trans; [|apply updateReticle_layout]|];
    destruct r; by repeat split.
Qed.

Lemma render_layout (file : SourceFile) (frame : option XRFrame) (s : ARSpace) :
  same_layout s (render file frame s).
Proof.
  unfold render.
  set (s1 := match frame with Some f => _ | None => s end).
  assert (H1 : same_layout s s1).
  { subst s1. destruct frame; [|apply same_layout_refl].
    destruct (non_null (arSession s)); [apply handleHitTest_layout|apply same_layout_refl]. }
  rewrite fold_update_object.
  set (s2 := set_heap _ s1).
  assert (H2 : same_layout s s2).
  { eapply same_layout_trans; [exact H1|]. subst s2. repeat split. simpl.
    apply fold_alter_length. }
  destruct (model s2); [|done].
  destruct (_ && _); [|done].
  eapply same_layout_trans; [exact H2|apply update_object_layout].
Qed.

End FrameLoop.

(** ** Well-formedness is kept *)

Lemma onSelect_wf (s : ARSpace) : wf s -> wf (onSelect s).
Proof.
  intros Hwf. unfold onSelect.
  destruct (_ || _); [done|].
  destruct Hwf as [Hr (m & Hm & Hlt & Hnp) Hp Hs Hn].
  rewrite Hm.
  destruct (heap s !! m) as [prototype|]; [|by split; eauto].
  destruct (heap s !! reticle s) as [ret_obj|]; [|by split; eauto].
  split; simpl; rewrite ?length_app; simpl.
  - lia.
  - exists m. split; [done|]. split; [lia|].
    rewrite elem_of_app, list_elem_of_singleton. intros [?| ->]; [done|lia].
  - apply Forall_app. split; [|by repeat constructor; lia].
    eapply Forall_impl; [exact Hp|]. simpl. intros; lia.
  - unfold scene_add. apply Forall_app. split; [|by repeat constructor; lia].
    apply Forall_forall. intros x Hx. apply remove_first_elem_of in Hx.
    rewrite Forall_forall in Hs. specialize (Hs x Hx). lia.
  - by apply scene_add_NoDup.
Qed.

Lemma onARSessionStart_wf (s : ARSpace) : wf s -> wf (onARSessionStart s).
Proof.
  intros Hwf. unfold onARSessionStart.
  destruct (model s) as [m|]; [|done].
  destruct (includes (scene_children s) m); [|done].
  destruct Hwf as [Hr Hm Hp Hs Hn]. split; simpl; try done.
  - apply Forall_forall. intros x Hx. apply remove_first_elem_of in Hx.
    rewrite Forall_forall in Hs. by apply Hs.
  - by apply remove_first_NoDup.
Qed.

Lemma onARSessionEnd_wf (s : ARSpace) : wf s -> wf (onARSessionEnd s).
Proof.
  intros [Hr (m & Hm & Hlt & Hnp) Hp Hs Hn]. unfold onARSessionEnd. simpl.
  rewrite Hm.
  assert (Hsub : Forall (fun c => c < length (heap s))
                   (remove_each (placedModels s) (scene_children s))).
  { apply Forall_forall. intros x Hx. apply remove_each_elem_of in Hx.
    rewrite Forall_forall in Hs. by apply Hs. }
  assert (Hnd := remove_each_NoDup (placedModels s) _ Hn).
  destruct (includes _ m); simpl; split; simpl; try done.
  - exists m. split; [done|]. split; [done|]. apply not_elem_of_nil.
  - exists m. split; [done|]. split; [done|]. apply not_elem_of_nil.
  - unfold scene_add. apply Forall_app. split; [|by repeat constructor].
    apply Forall_forall. intros x Hx. apply remove_first_elem_of in Hx.
    rewrite Forall_forall in Hsub. by apply Hsub.
  - by apply scene_add_NoDup.
Qed.

Lemma init_wf (file : SourceFile) load x (s : ARSpace) :
  init file load x = Returns s -> wf s.
Proof.
  intros Hinit.
  destruct file, load as [[o|]| |], x as [|b|]; vm_compute in Hinit;
    try discriminate Hinit; injection Hinit as <-;
    (split; cbn;
     [ lia
     | exists 1; split; [done|]; split; [lia|apply not_elem_of_nil]
     | constructor
     | repeat constructor; lia
     | apply NoDup_cons; split;
         [rewrite list_elem_of_singleton; lia | apply NoDup_singleton] ]).
Qed.

Section Reachable.
Context {E : Engine}.

Lemma step_wf (file : SourceFile) (e : Event) (s : ARSpace) :
  wf s -> wf (step file e s).
Proof.
  intros Hwf. destruct e as [frame|i r answers| |session| |]; simpl.
  - eapply wf_same_layout; [exact Hwf|apply render_layout].
  - destruct (pending s !! i) as [frame|]; [|done].
    eapply wf_same_layout; [exact Hwf|].
    eapply same_layout_trans; [|apply handleHitTest_resume_layout]. by repeat split.
  - destruct file; simpl; [by apply onSelect_wf|].
    destruct (non_null (arSession s)); [by apply onSelect_wf|done].
  - unfold arButton_click, startAR. destruct (isARSupported s); simpl; [|done].
    destruct session; [|done].
    eapply wf_same_layout; [apply onARSessionStart_wf, Hwf|by repeat split].
  - done.
  - by apply onARSessionEnd_wf.
Qed.

Lemma reachable_wf (file : SourceFile) (s : ARSpace) : reachable file s -> wf s.
Proof.
  induction 1 as [load x s Hinit|e s _ IH]; [by eapply init_wf|by apply step_wf].
Qed.

Lemma run_wf (file : SourceFile) (events : list Event) (s : ARSpace) :
  wf s -> wf (run file events s).
Proof.
  revert s. induction events as [|e events IH]; intros s Hwf; simpl; [done|].
  apply IH. by apply step_wf.
Qed.

Lemma run_reachable (file : SourceFile) (events : list Event) (s : ARSpace) :
  reachable file s -> reachable file (run file events s).
Proof.
  revert s. induction events as [|e events IH]; intros s Hs; simpl; [done|].
  apply IH. by constructor.
Qed.

End Reachable.

(** ** Model acquisition *)

Lemma lookup_new_object (h : list Object3D) (o : Object3D) :
  (h ++ [o]) !! length h = Some o.
Proof. by apply list_lookup_middle. Qed.

Lemma scene_add_elem_of (r : ref) (l : list ref) : r ∈ scene_add r l.
Proof. unfold scene_add. apply elem_of_app. right. by apply list_elem_of_singleton. Qed.

(** With the loader class there (and in app.js, which has none),
    [loadModel] returns normally from every state and leaves [this.model]
    pointing at an object that is in the scene.  In part_000, when the load is
    rejected, and also when it resolves without a scene, the [catch] builds
    the icosahedron: that is the model, and [modelType] says so. *)
Lemma loadModel_yields_model :
  (forall (file : SourceFile) (load : LoadOutcome) (s : ARSpace),
     file = app_js \/ load <> LoaderMissing ->
     exists s' m o,
       loadModel file load s = (Returns tt, s') /\
       model s' = Some m /\ heap s' !! m = Some o /\ m ∈ scene_children s') /\
  (forall (s : ARSpace),
     exists s' m o,
       loadModel part_000 LoadRejected s = (Returns tt, s') /\
       model s' = Some m /\ heap s' !! m = Some o /\
       shape o = IcosahedronGeometry /\ modelType s' = Some "icosahedron"%string) /\
  (forall (s : ARSpace),
     exists s' m o,
       loadModel part_000 (LoadResolved None) s = (Returns tt, s') /\
       model s' = Some m /\ heap s' !! m = Some o /\
       shape o = IcosahedronGeometry /\ modelType s' = Some "icosahedron"%string).
Proof.
  split; [|split].
  - intros file load s Hloader.
    assert (Hcase : file = app_js \/ (file = part_000 /\ load <> LoaderMissing)).
    { destruct file; [by left|]. right. split; [done|]. by destruct Hloader. }
    clear Hloader.
    destruct Hcase as [->|[-> Hload]]; [|destruct load as [[o|]| |]; [| | |done]];
      cbn; eexists _, (length (heap s)), _;
      (split; [reflexivity|]); (split; [reflexivity|]);
      (split; [|apply scene_add_elem_of]);
      simpl; rewrite ?list_lookup_alter_eq, lookup_new_object; reflexivity.
  - intros s. cbn. eexists _, (length (heap s)), _.
    split; [reflexivity|]. split; [reflexivity|].
    split; [simpl; rewrite !list_lookup_alter_eq, lookup_new_object; reflexivity|].
    by split.
  - intros s. cbn. eexists _, (length (heap s)), _.
    split; [reflexivity|]. split; [reflexivity|].
    split; [simpl; rewrite !list_lookup_alter_eq, lookup_new_object; reflexivity|].
    by split.
Qed.

(** C9 (not met by the code).  In part_000 the loader is made before the
    [try].  With the class missing, [loadModel] throws from a state in which
    [this.model] is null, with [isLoading] still set and nothing added to the
    scene; [init] ends with that exception, whatever the support check would
    have answered. *)
Theorem loadModel_throws_without_loader :
  exists s' error,
    loadModel part_000 LoaderMissing initThreeJS = (Throws error, s') /\
    model s' = None /\ isLoading s' = true /\
    scene_children s' = scene_children initThreeJS /\
    forall x, init part_000 LoaderMissing x = Throws error.
Proof. eexists _, _. split; [reflexivity|]. by repeat split. Qed.

(** ** Placement *)

(** C3. In a state the program can reach, with a session in [arSession], the
    reticle visible and a prototype in [model], [onSelect] appends exactly one
    new reference to [placedModels] (and to the scene), and the object behind
    it has the position and the quaternion the reticle had when [onSelect]
    was called. *)
Theorem onSelect_places {E : Engine} (file : SourceFile) (s : ARSpace)
    (x : XRSession) (m : ref) :
  reachable file s ->
  arSession s = Some x ->
  reticle_visible s = true ->
  model s = Some m ->
  exists c placed r,
    placedModels (onSelect s) = placedModels s ++ [c] /\
    length (placedModels (onSelect s)) = S (length (placedModels s)) /\
    scene_children (onSelect s) = scene_children s ++ [c] /\
    (c ∉ placedModels s) /\ (c ∉ scene_children s) /\
    heap s !! reticle s = Some r /\
    heap (onSelect s) !! c = Some placed /\
    position placed = position r /\
    quaternion placed = quaternion r.
Proof.
  intros Hreach Hsession Hvisible Hmodel.
  destruct (reachable_wf _ _ Hreach) as [Hr (m' & Hm' & Hlt & Hnp) Hp Hs Hn].
  rewrite Hmodel in Hm'. injection Hm' as <-.
  destruct (lookup_lt_is_Some_2 (heap s) m Hlt) as [prototype Hproto].
  destruct (lookup_lt_is_Some_2 (heap s) (reticle s) Hr) as [r Hret].
  unfold onSelect. rewrite Hsession, Hvisible, Hmodel, Hproto, Hret. simpl.
  assert (Hc1 : length (heap s) ∉ placedModels s).
  { intros Hin. rewrite Forall_forall in Hp. specialize (Hp _ Hin). simpl in Hp. lia. }
  assert (Hc2 : length (heap s) ∉ scene_children s).
  { intros Hin. rewrite Forall_forall in Hs. specialize (Hs _ Hin). simpl in Hs. lia. }
  eexists (length (heap s)), _, r.
  split; [reflexivity|]. split; [rewrite length_app; simpl; lia|].
  split; [by apply scene_add_new|].
  split; [done|]. split; [done|]. split; [done|].
  split; [apply lookup_new_object|]. by split.
Qed.

(** The hypotheses of C3 hold in [reticle_shown]. *)
Lemma onSelect_places_witness :
  exists c placed r,
    placedModels (onSelect reticle_shown) = placedModels reticle_shown ++ [c] /\
    length (placedModels (onSelect reticle_shown)) = S (length (placedModels reticle_shown)) /\
    scene_children (onSelect reticle_shown) = scene_children reticle_shown ++ [c] /\
    (c ∉ placedModels reticle_shown) /\ (c ∉ scene_children reticle_shown) /\
    heap reticle_shown !! reticle reticle_shown = Some r /\
    heap (onSelect reticle_shown) !! c = Some placed /\
    position placed = position r /\
    quaternion placed = quaternion r.
Proof.
  apply (onSelect_places (E:=sample_engine) app_js reticle_shown 7 1).
  - unfold reticle_shown, in_session. do 2 apply run_reachable.
    apply (reachable_init app_js LoadRejected (XRAnswer true)). reflexivity.
  - reflexivity.
  - reflexivity.
  - reflexivity.
Defined.

(** With null in [arSession], or with the reticle hidden, [onSelect] returns
    at once: no field changes, so neither [placedModels] nor the scene does.
    The same holds for the click listener of either revision. *)
Lemma onSelect_noop (s : ARSpace) :
  arSession s = None \/ reticle_visible s = false ->
  onSelect s = s /\ forall file, canvas_click file s = s.
Proof.
  intros Hguard.
  assert (Hsel : onSelect s = s).
  { unfold onSelect. destruct Hguard as [-> | ->]; simpl; [done|].
    by rewrite orb_true_r. }
  split; [done|]. intros [|]; simpl; [done|]. by destruct (non_null (arSession s)).
Qed.

Lemma onSelect_noop_witness :
  (arSession booted = None \/ reticle_visible booted = false) /\
  onSelect booted = booted /\ forall file, canvas_click file booted = booted.
Proof.
  split; [left; reflexivity|].
  apply (onSelect_noop booted). left. reflexivity.
Defined.

(** C4 (not met by the code).  Either revision: a session runs, the reticle
    shows, the session ends.  No session is active any more, but [arSession]
    still holds the ended one (no handler clears it) and the reticle mesh is
    still visible ([onARSessionEnd] hides the DOM overlay only), so the next
    click on the canvas places a clone. *)
Theorem click_after_session_end_places {E : Engine} (file : SourceFile) :
  let ended := run file one_session (started file) in
  arSession ended = Some 7 /\ reticle_visible ended = true /\
  hitTestSource ended = None /\
  placedModels ended = [] /\ scene_children ended = [0; 1] /\
  placedModels (step file CanvasClick ended) = [2] /\
  scene_children (step file CanvasClick ended) = [0; 1; 2].
Proof. destruct file; vm_compute; by repeat split. Qed.

(** C10. With [this.model] null, [onSelect] changes nothing, whatever the
    session and the reticle are. *)
Theorem onSelect_without_model (s : ARSpace) :
  model s = None ->
  onSelect s = s /\ forall file, canvas_click file s = s.
Proof.
  intros Hmodel.
  assert (Hsel : onSelect s = s).
  { unfold onSelect. rewrite Hmodel. by destruct (_ || _). }
  split; [done|]. intros [|]; simpl; [done|]. by destruct (non_null (arSession s)).
Qed.

Lemma onSelect_without_model_witness :
  model reticle_shown_no_model = None /\
  onSelect reticle_shown_no_model = reticle_shown_no_model /\
  forall file, canvas_click file reticle_shown_no_model = reticle_shown_no_model.
Proof.
  split; [reflexivity|].
  apply (onSelect_without_model reticle_shown_no_model). reflexivity.
Defined.

(** ** Session end *)

Lemma includes_scene_add (m : ref) (l : list ref) : includes (scene_add m l) m = true.
Proof. apply includes_elem_of, scene_add_elem_of. Qed.

Lemma onARSessionEnd_idempotent (s : ARSpace) :
  onARSessionEnd (onARSessionEnd s) = onARSessionEnd s.
Proof.
  unfold onARSessionEnd. simpl.
  destruct (model s) as [m|] eqn:Hmodel; simpl; [|by rewrite Hmodel].
  destruct (includes (remove_each (placedModels s) (scene_children s)) m) eqn:Hinc;
    simpl; rewrite Hmodel; simpl.
  - by rewrite Hinc.
  - by rewrite includes_scene_add.
Qed.

(** C6. In a state the program can reach, [onARSessionEnd] empties
    [placedModels], leaves none of the formerly placed objects among the
    children of the scene, and leaves the prototype among them exactly once;
    run again on its own result it changes nothing. *)
Theorem onARSessionEnd_cleans {E : Engine} (file : SourceFile) (s : ARSpace) :
  reachable file s ->
  placedModels (onARSessionEnd s) = [] /\
  (forall p, p ∈ placedModels s -> p ∉ scene_children (onARSessionEnd s)) /\
  (exists m, model (onARSessionEnd s) = Some m /\
             count_occ Nat.eq_dec (scene_children (onARSessionEnd s)) m = 1) /\
  onARSessionEnd (onARSessionEnd s) = onARSessionEnd s.
Proof.
  intros Hreach.
  assert (Hwf' := onARSessionEnd_wf s (reachable_wf _ _ Hreach)).
  destruct (reachable_wf _ _ Hreach) as [Hr (m & Hm & Hlt & Hnp) Hp Hs Hn].
  assert (Hplaced : placedModels (onARSessionEnd s) = []).
  { unfold onARSessionEnd. simpl. rewrite Hm. by destruct (includes _ m). }
  assert (Hmodel : model (onARSessionEnd s) = Some m).
  { unfold onARSessionEnd. simpl. rewrite Hm. by destruct (includes _ m). }
  assert (Hin : m ∈ scene_children (onARSessionEnd s)).
  { unfold onARSessionEnd. simpl. rewrite Hm.
    destruct (includes _ m) eqn:Hinc; simpl.
    - by apply includes_elem_of.
    - apply scene_add_elem_of. }
  split; [done|]. split; [|split; [|apply onARSessionEnd_idempotent]].
  - intros p Hp' Hscene.
    assert (Hpm : p <> m) by (intros ->; done).
    revert Hscene. unfold onARSessionEnd. simpl. rewrite Hm.
    destruct (includes _ m); simpl.
    + by apply remove_each_gone.
    + unfold scene_add. rewrite elem_of_app, list_elem_of_singleton.
      intros [Hrem|?]; [|done].
      apply remove_first_elem_of in Hrem. revert Hrem. by apply remove_each_gone.
  - exists m. split; [done|].
    apply NoDup_count_occ'; [apply NoDup_ListNoDup, (wf_nodup _ Hwf')|].
    by apply list_elem_of_In.
Qed.

(** The hypothesis of C6 holds after a placement in [reticle_shown]. *)
Lemma onARSessionEnd_cleans_witness :
  let s := onSelect reticle_shown in
  placedModels (onARSessionEnd s) = [] /\
  (forall p, p ∈ placedModels s -> p ∉ scene_children (onARSessionEnd s)) /\
  (exists m, model (onARSessionEnd s) = Some m /\
             count_occ Nat.eq_dec (scene_children (onARSessionEnd s)) m = 1) /\
  onARSessionEnd (onARSessionEnd s) = onARSessionEnd s.
Proof.
  apply (onARSessionEnd_cleans (E:=sample_engine) app_js (onSelect reticle_shown)).
  apply (reachable_step (E:=sample_engine) app_js CanvasClick).
  unfold reticle_shown, in_session. do 2 apply run_reachable.
  apply (reachable_init app_js LoadRejected (XRAnswer true)). reflexivity.
Defined.

(** ** The reticle *)

Lemma reticle_visible_update_object (f : Object3D -> Object3D) (s : ARSpace) :
  reticle_visible (update_object (reticle s) f s)
  = match heap s !! reticle s with
    | Some o => visible (f o)
    | None => false
    end.
Proof.
  unfold reticle_visible, update_object. simpl. rewrite list_lookup_alter_eq.
  by destruct (heap s !! reticle s).
Qed.

(** An update that does not touch [visible], on whatever object. *)
Lemma reticle_visible_kept (r : ref) (f : Object3D -> Object3D) (s : ARSpace) :
  (forall o, visible (f o) = visible o) ->
  reticle_visible (update_object r f s) = reticle_visible s.
Proof.
  intros Hf. unfold reticle_visible, update_object. simpl.
  rewrite list_lookup_alter. destruct (decide (r = reticle s)) as [->|_]; [|done].
  destruct (heap s !! reticle s); simpl; [apply Hf|done].
Qed.

Lemma reticle_visible_fold (f : Object3D -> Object3D) (ps : list ref) (s : ARSpace) :
  (forall o, visible (f o) = visible o) ->
  reticle_visible (fold_left (fun st m => update_object m f st) ps s) = reticle_visible s.
Proof.
  intros Hf. revert s. induction ps as [|p ps IH]; intros s; simpl; [done|].
  rewrite IH. by apply reticle_visible_kept.
Qed.

Section Reticle.
Context {E : Engine}.

Lemma spin_visible (o : Object3D) : visible (spin o) = visible o.
Proof.
  unfold spin. destruct (rotationSpeed o) as [speed|]; [|done].
  destruct (truthy (Some speed)); reflexivity.
Qed.

Lemma preview_spin_visible (file : SourceFile) (o : Object3D) :
  visible (preview_spin file o) = visible o.
Proof.
  destruct file; simpl; [done|].
  destruct (rotationSpeed o) as [speed|]; [|done].
  destruct (negb (Qnum speed =? 0)%Z); reflexivity.
Qed.

Lemma updateReticle_hitTestSource (frame : XRFrame) (s : ARSpace) :
  hitTestSource (updateReticle frame s) = hitTestSource s /\
  hitTestSourceRequested (updateReticle frame s) = hitTestSourceRequested s.
Proof.
  unfold updateReticle. destruct (hitTestSource s) as [source|] eqn:Hs; [|by rewrite Hs].
  by destruct (getHitTestResults frame source) as [|[matrix|] ?]; simpl; rewrite ?Hs.
Qed.

Lemma updateReticle_visible (frame : XRFrame) (s : ARSpace) :
  reticle_visible (updateReticle frame s) = true ->
  reticle_visible s = true \/ is_Some (hitTestSource s).
Proof.
  unfold updateReticle. destruct (hitTestSource s); [by right|by left].
Qed.

Lemma handleHitTest_hitTestSource (frame : XRFrame) (s : ARSpace) :
  hitTestSource (handleHitTest frame s) = hitTestSource s.
Proof.
  unfold handleHitTest. destruct (hitTestSourceRequested s); simpl; [|done].
  apply updateReticle_hitTestSource.
Qed.

Lemma handleHitTest_visible (frame : XRFrame) (s : ARSpace) :
  reticle_visible (handleHitTest frame s) = true ->
  reticle_visible s = true \/ is_Some (hitTestSource s).
Proof.
  unfold handleHitTest. destruct (hitTestSourceRequested s); simpl;
    [apply updateReticle_visible|by left].
Qed.

Lemma render_hitTestSource (file : SourceFile) (frame : option XRFrame) (s : ARSpace) :
  hitTestSource (render file frame s) = hitTestSource s.
Proof.
  unfold render. rewrite fold_update_object.
  set (s1 := match frame with Some f => _ | None => s end).
  assert (H1 : hitTestSource s1 = hitTestSource s).
  { subst s1. destruct frame; [|done].
    destruct (non_null (arSession s)); [apply handleHitTest_hitTestSource|done]. }
  simpl. destruct (model s1); [|done]. by destruct (_ && _).
Qed.

Lemma render_visible (file : SourceFile) (frame : option XRFrame) (s : ARSpace) :
  reticle_visible (render file frame s) = true ->
  reticle_visible s = true \/ is_Some (hitTestSource s).
Proof.
  unfold render.
  set (s1 := match frame with Some f => _ | None => s end).
  set (s2 := fold_left _ _ s1).
  assert (H2 : reticle_visible s2 = reticle_visible s1)
    by apply reticle_visible_fold, spin_visible.
  assert (H3 : reticle_visible s1 = true ->
               reticle_visible s = true \/ is_Some (hitTestSource s)).
  { subst s1. destruct frame; [|by left].
    destruct (non_null (arSession s)); [apply handleHitTest_visible|by left]. }
  destruct (model s2) as [m|]; [|by rewrite H2].
  destruct (_ && _); [|by rewrite H2].
  rewrite reticle_visible_kept by apply preview_spin_visible. by rewrite H2.
Qed.

Lemma onSelect_visible (s : ARSpace) :
  reticle_visible (onSelect s) = true -> reticle_visible s = true.
Proof.
  unfold onSelect. destruct (reticle_visible s) eqn:Hv; [done|].
  by rewrite orb_true_r, Hv.
Qed.

Lemma onARSessionStart_visible (s : ARSpace) :
  reticle_visible (onARSessionStart s) = reticle_visible s.
Proof.
  unfold onARSessionStart. destruct (model s); [|done]. by destruct (includes _ _).
Qed.

(** [onARSessionEnd] hides the DOM overlay; the reticle mesh and the field
    [arSession] stay as they were. *)
Lemma onARSessionEnd_visible (s : ARSpace) :
  reticle_visible (onARSessionEnd s) = reticle_visible s.
Proof.
  unfold onARSessionEnd. simpl. destruct (model s); [|done]. by destruct (includes _ _).
Qed.

Lemma onARSessionEnd_arSession (s : ARSpace) :
  arSession (onARSessionEnd s) = arSession s.
Proof.
  unfold onARSessionEnd. simpl. destruct (model s); [|done]. by destruct (includes _ _).
Qed.

(** The reticle is shown by no event but one that leaves a hit-test source
    in [hitTestSource]. *)
Lemma step_visible (file : SourceFile) (e : Event) (s : ARSpace) :
  reticle_visible (step file e s) = true ->
  reticle_visible s = true \/ is_Some (hitTestSource (step file e s)).
Proof.
  destruct e as [frame|i r answers| |session| |]; simpl.
  - rewrite render_hitTestSource. apply render_visible.
  - destruct (pending s !! i) as [frame|]; [|by left].
    unfold handleHitTest_resume.
    set (s1 := match r with Resolved _ => _ | Rejected => _ end).
    assert (H1 : reticle_visible s1 = reticle_visible s) by (subst s1; by destruct r).
    assert (H2 : is_Some (hitTestSource s1) ->
                 is_Some (hitTestSource (if answers then updateReticle frame s1 else s1))).
    { destruct answers; [|done].
      by destruct (updateReticle_hitTestSource frame s1) as [-> _]. }
    destruct answers.
    + intros Hv. apply updateReticle_visible in Hv as [Hv|Hv]; [left; congruence|].
      right. by apply H2.
    + intros Hv. left. congruence.
  - intros Hv. left. destruct file; simpl in Hv; [by apply onSelect_visible|].
    destruct (non_null (arSession s)); [by apply onSelect_visible|done].
  - unfold arButton_click, startAR. destruct (isARSupported s); simpl; [|by left].
    destruct session; [|by left]. intros Hv. left.
    by rewrite <- onARSessionStart_visible.
  - by left.
  - rewrite onARSessionEnd_visible. by left.
Qed.

End Reticle.

Lemma init_reticle_hidden (file : SourceFile) load x (s : ARSpace) :
  init file load x = Returns s -> reticle_visible s = false.
Proof.
  intros Hinit.
  destruct file, load as [[o|]| |], x as [|b|]; vm_compute in Hinit;
    try discriminate Hinit; by injection Hinit as <-.
Qed.

Lemma run_app {E : Engine} (file : SourceFile) (l1 l2 : list Event) (s : ARSpace) :
  run file (l1 ++ l2) s = run file l2 (run file l1 s).
Proof. apply fold_left_app. Qed.

Lemma booted_reachable {E : Engine} : reachable app_js booted.
Proof. apply (reachable_init app_js LoadRejected (XRAnswer true)). reflexivity. Qed.

Lemma request_pending_reachable : reachable (E:=sample_engine) app_js request_pending.
Proof.
  unfold request_pending, in_session. do 2 apply run_reachable. apply booted_reachable.
Qed.

Lemma reticle_shown_reachable : reachable (E:=sample_engine) app_js reticle_shown.
Proof.
  unfold reticle_shown, in_session. do 2 apply run_reachable. apply booted_reachable.
Qed.

(** C5, as stated, fails: in [reticle_shown] the source is ready and the
    reticle is showing; a frame whose first result has a null pose leaves it
    showing. *)
Lemma reticle_kept_on_null_pose :
  ~ (forall (E : Engine) (file : SourceFile) (s : ARSpace) (frame : XRFrame)
            (source : XRHitTestSource),
       reachable file s ->
       hitTestSource s = Some source ->
       hitTestSourceRequested s = true ->
       (reticle_visible (handleHitTest frame s) = true <->
        exists matrix, head (getHitTestResults frame source) = Some (Some matrix))).
Proof.
  intros Hclaim.
  destruct (Hclaim sample_engine app_js reticle_shown (frame_null_pose 7) 3
              reticle_shown_reachable eq_refl eq_refl) as [Hshown _].
  destruct (Hshown eq_refl) as [matrix Hhead]. discriminate Hhead.
Qed.

(** C5, amended.  With the source ready, [handleHitTest] hides the reticle
    when the query returns nothing and shows it when the first result has a
    pose; when the first result has a null pose the reticle stays as it
    was. *)
Theorem handleHitTest_reticle {E : Engine} (file : SourceFile) (s : ARSpace)
    (frame : XRFrame) (source : XRHitTestSource) :
  reachable file s ->
  hitTestSource s = Some source ->
  hitTestSourceRequested s = true ->
  reticle_visible (handleHitTest frame s)
  = match getHitTestResults frame source with
    | [] => false
    | Some _ :: _ => true
    | None :: _ => reticle_visible s
    end.
Proof.
  intros Hreach Hsource Hflag.
  assert (Hr := wf_reticle _ (reachable_wf _ _ Hreach)).
  destruct (lookup_lt_is_Some_2 (heap s) (reticle s) Hr) as [r Hret].
  unfold handleHitTest, updateReticle. rewrite Hflag, Hsource. simpl.
  destruct (getHitTestResults frame source) as [|[matrix|] rest]; [| |done].
  - by rewrite reticle_visible_update_object, Hret.
  - unfold reticle_visible, update_object. simpl.
    by rewrite !list_lookup_alter_eq, Hret.
Qed.

Lemma handleHitTest_reticle_witness :
  reticle_visible (handleHitTest (E:=sample_engine) (frame_empty 7) reticle_shown) = false /\
  reticle_visible (handleHitTest (E:=sample_engine) (frame_hit 7) reticle_shown) = true /\
  reticle_visible (handleHitTest (E:=sample_engine) (frame_null_pose 7) reticle_shown)
  = reticle_visible reticle_shown.
Proof.
  split; [|split].
  - apply (handleHitTest_reticle (E:=sample_engine) app_js reticle_shown (frame_empty 7) 3
             reticle_shown_reachable eq_refl eq_refl).
  - apply (handleHitTest_reticle (E:=sample_engine) app_js reticle_shown (frame_hit 7) 3
             reticle_shown_reachable eq_refl eq_refl).
  - apply (handleHitTest_reticle (E:=sample_engine) app_js reticle_shown (frame_null_pose 7) 3
             reticle_shown_reachable eq_refl eq_refl).
Defined.

(** Start the program and let any events happen.  If [hitTestSource] is
    null after start-up and after every event so far, the reticle is hidden
    after start-up and after every event so far. *)
Lemma reticle_hidden_without_source {E : Engine} (file : SourceFile)
    (load : LoadOutcome) (x : XRSupport) (s0 : ARSpace) (events : list Event) :
  init file load x = Returns s0 ->
  (forall k, hitTestSource (run file (take k events) s0) = None) ->
  forall k, reticle_visible (run file (take k events) s0) = false.
Proof.
  intros Hinit Hnone k. induction k as [|k IH].
  - simpl. by eapply init_reticle_hidden.
  - destruct (events !! k) as [e|] eqn:He.
    + specialize (Hnone (S k)).
      rewrite (take_S_r _ _ _ He), run_app in Hnone |- *. simpl in Hnone |- *.
      destruct (reticle_visible (step file e _)) eqn:Hv; [|done].
      apply step_visible in Hv as [Hv|Hv]; [congruence|].
      rewrite Hnone in Hv. by destruct Hv.
    + apply lookup_ge_None in He.
      rewrite take_ge by lia. by rewrite take_ge in IH by lia.
Qed.

(** A run in which no source is ever acquired: the only request fails. *)
Lemma reticle_hidden_without_source_witness :
  let events := [ARButtonClick (Some 7); Frame (Some (frame_hit 7));
                 Frame (Some (frame_hit 7)); Settle 0 Rejected true; CanvasClick] in
  init app_js LoadRejected (XRAnswer true) = Returns booted /\
  (forall k, hitTestSource (run (E:=sample_engine) app_js (take k events) booted) = None) /\
  (forall k, reticle_visible (run (E:=sample_engine) app_js (take k events) booted) = false).
Proof.
  intros events.
  assert (Hnone : forall k,
             hitTestSource (run (E:=sample_engine) app_js (take k events) booted) = None).
  { intros k. do 6 (destruct k as [|k]; [reflexivity|]). reflexivity. }
  split; [reflexivity|]. split; [exact Hnone|].
  exact (reticle_hidden_without_source (E:=sample_engine) app_js LoadRejected
           (XRAnswer true) booted events eq_refl Hnone).
Defined.

(** C8 (not met by the code).  Either revision, after a session in which the
    reticle was shown: [onARSessionEnd] has set [hitTestSource] to null and
    left the mesh visible.  Through the frames that follow, in preview and in
    a second session whose requests have not settled, no source is held and
    the reticle is visible. *)
Theorem reticle_visible_without_source {E : Engine} (file : SourceFile) :
  let ended := run file one_session (started file) in
  let events := [Frame None; ARButtonClick (Some 8); Frame (Some (frame_empty 8));
                 Frame (Some (frame_hit 8))] in
  forall k,
    hitTestSource (run file (take k events) ended) = None /\
    reticle_visible (run file (take k events) ended) = true.
Proof.
  intros ended events k.
  destruct file; do 5 (destruct k as [|k]; [by vm_compute|]); by vm_compute.
Qed.

(** ** The request for a hit-test source *)

Lemma fold_update_object_fields (f : Object3D -> Object3D) (ps : list ref) (s : ARSpace) :
  let s' := fold_left (fun st m => update_object m f st) ps s in
  requestLog s' = requestLog s /\ pending s' = pending s /\
  hitTestSourceRequested s' = hitTestSourceRequested s /\ arSession s' = arSession s.
Proof. simpl. by rewrite fold_update_object. Qed.

(** The flag is written by the resumed half of [handleHitTest] only, and only
    when the promise resolved: a frame rendered in a session before that
    sends one more request and leaves the flag unset. *)
Lemma render_requests_again {E : Engine} (file : SourceFile) (frame : XRFrame)
    (s : ARSpace) (x : XRSession) :
  arSession s = Some x ->
  hitTestSourceRequested s = false ->
  requestLog (render file (Some frame) s) = requestLog s ++ [frame_session frame] /\
  pending (render file (Some frame) s) = pending s ++ [frame] /\
  hitTestSourceRequested (render file (Some frame) s) = false.
Proof.
  intros Hsession Hflag. unfold render, handleHitTest. rewrite Hsession, Hflag. simpl.
  rewrite fold_update_object. simpl. rewrite Hsession. simpl.
  destruct (model s) as [m|]; [|done]. by rewrite andb_false_r.
Qed.

(** C1 (not met by the code).  One session, three frames rendered before the
    first promise settles: [session.requestHitTestSource] has been called
    three times, three calls of [handleHitTest] are suspended, and the flag is
    still unset. *)
Theorem request_issued_every_frame {E : Engine} :
  arSession in_session = Some 7 /\ requestLog in_session = [] /\
  let s := run app_js [Frame (Some (frame_empty 7)); Frame (Some (frame_empty 7));
                       Frame (Some (frame_empty 7))] in_session in
  requestLog s = [7; 7; 7] /\ length (pending s) = 3 /\
  hitTestSourceRequested s = false.
Proof. by repeat split. Qed.

(** C7 (not met by the code).  The request of the first frame is rejected.
    The next frame of the same session sends a second request; that one
    resolves, and a later frame shows the reticle. *)
Theorem request_retried_after_failure {E : Engine} :
  let failed := run app_js [Frame (Some (frame_empty 7)); Settle 0 Rejected false]
                  in_session in
  let retried := run app_js [Frame (Some (frame_hit 7))] failed in
  let shown := run app_js [Settle 0 (Resolved 3) false; Frame (Some (frame_hit 7))]
                 retried in
  requestLog failed = [7] /\ pending failed = [] /\ hitTestSource failed = None /\
  requestLog retried = [7; 7] /\
  arSession shown = Some 7 /\ reticle_visible shown = true.
Proof. by repeat split. Qed.

(** C2, as stated, fails: [request_pending] has one request out; the session
    ends, then the request resolves with source 3, and [hitTestSource] holds
    that source instead of the null [onARSessionEnd] gave it. *)
Lemma late_resolution_overwrites_reset :
  ~ (forall (E : Engine) (file : SourceFile) (s : ARSpace) (i : nat) (frame : XRFrame)
            (source : XRHitTestSource) (answers : bool),
       reachable file s ->
       pending s !! i = Some frame ->
       let s' := step file (Settle i (Resolved source) answers) (onARSessionEnd s) in
       hitTestSource s' = None /\ hitTestSourceRequested s' = false).
Proof.
  intros Hclaim.
  destruct (Hclaim sample_engine app_js request_pending 0 (frame_empty 7) 3 false
              request_pending_reachable eq_refl) as [Hsource _].
  discriminate Hsource.
Qed.

(** C2, amended.  [onARSessionEnd] resets both hit-test fields and leaves a
    suspended call of [handleHitTest] suspended: nothing cancels it and
    nothing guards its completion.  When its promise is rejected afterwards
    the fields keep the reset values; when it resolves, the handle is stored
    in [hitTestSource], over the reset. *)
Theorem settle_after_session_end {E : Engine} (file : SourceFile) (s : ARSpace)
    (i : nat) (frame : XRFrame) (answers : bool) :
  pending s !! i = Some frame ->
  hitTestSource (onARSessionEnd s) = None /\
  hitTestSourceRequested (onARSessionEnd s) = false /\
  pending (onARSessionEnd s) !! i = Some frame /\
  (hitTestSource (step file (Settle i Rejected answers) (onARSessionEnd s)) = None /\
   hitTestSourceRequested (step file (Settle i Rejected answers) (onARSessionEnd s))
   = false) /\
  (forall source,
     hitTestSource (step file (Settle i (Resolved source) answers) (onARSessionEnd s))
     = Some source).
Proof.
  intros Hpending.
  assert (Hfields : hitTestSource (onARSessionEnd s) = None /\
                    hitTestSourceRequested (onARSessionEnd s) = false /\
                    pending (onARSessionEnd s) = pending s).
  { unfold onARSessionEnd. simpl. destruct (model s); [|done]. by destruct (includes _ _). }
  destruct Hfields as (Hsource & Hflag & Hsame).
  split; [done|]. split; [done|]. split; [by rewrite Hsame|].
  simpl. rewrite Hsame, Hpending. unfold handleHitTest_resume.
  split; [|intros source]; destruct answers;
    rewrite ?(proj1 (updateReticle_hitTestSource _ _)),
            ?(proj2 (updateReticle_hitTestSource _ _)); simpl; by rewrite ?Hsource, ?Hflag.
Qed.

Lemma settle_after_session_end_witness :
  let ended := onARSessionEnd request_pending in
  pending request_pending !! 0 = Some (frame_empty 7) /\
  hitTestSource ended = None /\
  hitTestSourceRequested ended = false /\
  pending ended !! 0 = Some (frame_empty 7) /\
  (hitTestSource (step (E:=sample_engine) app_js (Settle 0 Rejected false) ended) = None /\
   hitTestSourceRequested (step (E:=sample_engine) app_js (Settle 0 Rejected false) ended)
   = false) /\
  (forall source,
     hitTestSource (step (E:=sample_engine) app_js (Settle 0 (Resolved source) false) ended)
     = Some source).
Proof.
  intros ended. split; [reflexivity|].
  exact (settle_after_session_end (E:=sample_engine) app_js request_pending 0
           (frame_empty 7) false eq_refl).
Defined.

(** ** Objects across events *)

Lemma same_tags_refl (o : Object3D) : same_tags o o.
Proof. by repeat split. Qed.

Lemma same_tags_trans (o1 o2 o3 : Object3D) :
  same_tags o1 o2 -> same_tags o2 o3 -> same_tags o1 o3.
Proof. intros (?&?&?) (?&?&?). repeat split; congruence. Qed.

Lemma same_but_orientation_refl (o : Object3D) : same_but_orientation o o.
Proof. by repeat split. Qed.

Lemma same_but_orientation_trans (o1 o2 o3 : Object3D) :
  same_but_orientation o1 o2 -> same_but_orientation o2 o3 -> same_but_orientation o1 o3.
Proof.
  intros (?&?&?) (?&?&?). split; [by eapply same_tags_trans|]. split; congruence.
Qed.

Lemma objects_kept_refl (s : ARSpace) : objects_kept s s.
Proof.
  intros i o Hi. exists o. split; [done|].
  split; [apply same_tags_refl|intros _; apply same_but_orientation_refl].
Qed.

Lemma objects_kept_trans (s1 s2 s3 : ARSpace) :
  reticle s2 = reticle s1 ->
  objects_kept s1 s2 -> objects_kept s2 s3 -> objects_kept s1 s3.
Proof.
  intros Hr H12 H23 i o Hi.
  destruct (H12 i o Hi) as (o2 & Hi2 & Ht2 & Ho2).
  destruct (H23 i o2 Hi2) as (o3 & Hi3 & Ht3 & Ho3).
  exists o3. split; [done|]. split; [by eapply same_tags_trans|].
  intros Hne. eapply same_but_orientation_trans; [by apply Ho2|].
  apply Ho3. by rewrite Hr.
Qed.

(** An in-place update that keeps all but the orientation, on any object. *)
Lemma update_object_kept (r : ref) (f : Object3D -> Object3D) (s : ARSpace) :
  (forall o, same_but_orientation o (f o)) ->
  objects_kept s (update_object r f s).
Proof.
  intros Hf i o Hi. simpl. rewrite list_lookup_alter.
  destruct (decide (r = i)) as [->|_].
  - rewrite Hi. simpl. exists (f o). split; [done|].
    split; [apply Hf|intros _; apply Hf].
  - exists o. split; [done|].
    split; [apply same_tags_refl|intros _; apply same_but_orientation_refl].
Qed.

(** An in-place update of the reticle that keeps its tags. *)
Lemma update_reticle_kept (f : Object3D -> Object3D) (s : ARSpace) :
  (forall o, same_tags o (f o)) ->
  objects_kept s (update_object (reticle s) f s).
Proof.
  intros Hf i o Hi. simpl. rewrite list_lookup_alter.
  destruct (decide (reticle s = i)) as [<-|_].
  - rewrite Hi. simpl. exists (f o). split; [done|]. split; [apply Hf|done].
  - exists o. split; [done|].
    split; [apply same_tags_refl|intros _; apply same_but_orientation_refl].
Qed.

Lemma fold_update_object_kept (f : Object3D -> Object3D) (ps : list ref) (s : ARSpace) :
  (forall o, same_but_orientation o (f o)) ->
  objects_kept s (fold_left (fun st m => update_object m f st) ps s).
Proof.
  intros Hf. revert s. induction ps as [|p ps IH]; intros s; simpl.
  - apply objects_kept_refl.
  - eapply objects_kept_trans; [|by apply update_object_kept|apply IH]. done.
Qed.

Section Objects.
Context {E : Engine}.

Lemma rotateY_kept (speed : Q) (o : Object3D) : same_but_orientation o (rotateY speed o).
Proof. by repeat split. Qed.

Lemma spin_kept (o : Object3D) : same_but_orientation o (spin o).
Proof.
  unfold spin. destruct (rotationSpeed o) as [speed|] eqn:Hs;
    [|apply same_but_orientation_refl].
  destruct (truthy (Some speed)); [apply rotateY_kept|apply same_but_orientation_refl].
Qed.

Lemma preview_spin_kept (file : SourceFile) (o : Object3D) :
  same_but_orientation o (preview_spin file o).
Proof.
  destruct file; simpl; [apply rotateY_kept|].
  destruct (rotationSpeed o) as [speed|] eqn:Hs; [|apply rotateY_kept].
  destruct (negb (Qnum speed =? 0)%Z); apply rotateY_kept.
Qed.

Lemma updateReticle_kept (frame : XRFrame) (s : ARSpace) :
  objects_kept s (updateReticle frame s).
Proof.
  unfold updateReticle.
  destruct (hitTestSource s) as [source|]; [|apply objects_kept_refl].
  destruct (getHitTestResults frame source) as [|[matrix|] ?];
    [by apply update_reticle_kept| |apply objects_kept_refl].
  set (s1 := update_object (reticle s) (with_visible true) s).
  set (s2 := update_object (reticle s) (with_position (setFromMatrixPosition matrix)) s1).
  assert (H1 : objects_kept s s1) by (by apply update_reticle_kept).
  assert (H2 : objects_kept s1 s2) by (by apply (update_reticle_kept _ s1)).
  assert (H3 : objects_kept s2
                 (update_object (reticle s)
                    (with_quaternion (setFromRotationMatrix matrix)) s2))
    by (by apply (update_reticle_kept _ s2)).
  eapply objects_kept_trans; [|exact H1|]; [done|].
  eapply objects_kept_trans; [|exact H2|exact H3]. done.
Qed.

End Objects.

Lemma heap_eq_kept (s s' : ARSpace) : heap s' = heap s -> objects_kept s s'.
Proof.
  intros Hh i o Hi. exists o. rewrite Hh. split; [done|].
  split; [apply same_tags_refl|intros _; apply same_but_orientation_refl].
Qed.

Section ObjectsAcrossEvents.
Context {E : Engine}.

Lemma handleHitTest_kept (frame : XRFrame) (s : ARSpace) :
  objects_kept s (handleHitTest frame s).
Proof.
  unfold handleHitTest. destruct (hitTestSourceRequested s); simpl;
    [apply updateReticle_kept|by apply heap_eq_kept].
Qed.

Lemma handleHitTest_resume_kept frame r answers (s : ARSpace) :
  objects_kept s (handleHitTest_resume frame r answers s).
Proof.
  unfold handleHitTest_resume.
  set (s1 := match r with Resolved _ => _ | Rejected => _ end).
  assert (H1 : objects_kept s s1) by (subst s1; destruct r; by apply heap_eq_kept).
  destruct answers; [|done].
  eapply objects_kept_trans; [|exact H1|apply updateReticle_kept].
  subst s1. by destruct r.
Qed.

Lemma render_kept (file : SourceFile) (frame : option XRFrame) (s : ARSpace) :
  objects_kept s (render file frame s).
Proof.
  unfold render.
  set (s1 := match frame with Some f => _ | None => s end).
  assert (H1 : objects_kept s s1 /\ same_layout s s1).
  { subst s1. destruct frame; [|split; [apply objects_kept_refl|apply same_layout_refl]].
    destruct (non_null (arSession s));
      [split; [apply handleHitTest_kept|apply handleHitTest_layout]
      |split; [apply objects_kept_refl|apply same_layout_refl]]. }
  destruct H1 as [H1 L1].
  set (s2 := fold_left _ _ s1).
  assert (H2 : objects_kept s1 s2) by apply fold_update_object_kept, spin_kept.
  assert (L2 : reticle s2 = reticle s1) by (subst s2; by rewrite fold_update_object).
  assert (H12 : objects_kept s s2).
  { eapply objects_kept_trans; [|exact H1|exact H2]. apply L1. }
  destruct (model s2) as [m|]; [|done].
  destruct (_ && _); [|done].
  eapply objects_kept_trans; [|exact H12|apply update_object_kept, preview_spin_kept].
  rewrite L2. apply L1.
Qed.

Lemma onSelect_kept (s : ARSpace) : objects_kept s (onSelect s).
Proof.
  unfold onSelect. destruct (_ || _); [apply objects_kept_refl|].
  destruct (model s) as [m|]; [|apply objects_kept_refl].
  destruct (heap s !! m) as [prototype|]; [|apply objects_kept_refl].
  destruct (heap s !! reticle s) as [ret_obj|]; [|apply objects_kept_refl].
  intros i o Hi. simpl. exists o. split; [by apply lookup_app_l_Some|].
  split; [apply same_tags_refl|intros _; apply same_but_orientation_refl].
Qed.

Lemma onARSessionStart_heap (s : ARSpace) : heap (onARSessionStart s) = heap s.
Proof.
  unfold onARSessionStart. destruct (model s); [|done]. by destruct (includes _ _).
Qed.

Lemma onARSessionEnd_heap (s : ARSpace) : heap (onARSessionEnd s) = heap s.
Proof.
  unfold onARSessionEnd. simpl. destruct (model s); [|done]. by destruct (includes _ _).
Qed.

Lemma step_kept (file : SourceFile) (e : Event) (s : ARSpace) :
  objects_kept s (step file e s).
Proof.
  destruct e as [frame|i r answers| |session| |]; simpl.
  - apply render_kept.
  - destruct (pending s !! i) as [frame|]; [|apply objects_kept_refl].
    eapply objects_kept_trans;
      [|apply (heap_eq_kept s (set_pending (delete i (pending s)) s))
       |apply handleHitTest_resume_kept]; done.
  - destruct file; simpl; [apply onSelect_kept|].
    destruct (non_null (arSession s)); [apply onSelect_kept|apply objects_kept_refl].
  - unfold arButton_click, startAR.
    destruct (isARSupported s); simpl; [|apply objects_kept_refl].
    destruct session; [|apply objects_kept_refl].
    apply heap_eq_kept. simpl. apply onARSessionStart_heap.
  - apply objects_kept_refl.
  - apply heap_eq_kept, onARSessionEnd_heap.
Qed.

End ObjectsAcrossEvents.

(** ** Fields across events *)

Lemma only_heap_refl (s : ARSpace) : only_heap s s.
Proof. unfold only_heap. by destruct s. Qed.

Lemma only_heap_trans (s1 s2 s3 : ARSpace) :
  only_heap s1 s2 -> only_heap s2 s3 -> only_heap s1 s3.
Proof. unfold only_heap. intros H12 H23. rewrite H23 at 1. by rewrite H12. Qed.

Lemma update_object_only_heap (r : ref) (f : Object3D -> Object3D) (s : ARSpace) :
  only_heap s (update_object r f s).
Proof. reflexivity. Qed.

Lemma fold_update_object_only_heap (f : Object3D -> Object3D) (ps : list ref)
    (s : ARSpace) :
  only_heap s (fold_left (fun st m => update_object m f st) ps s).
Proof. unfold only_heap. by rewrite fold_update_object. Qed.

Section Fields.
Context {E : Engine}.

Lemma updateReticle_only_heap (frame : XRFrame) (s : ARSpace) :
  only_heap s (updateReticle frame s).
Proof.
  unfold updateReticle.
  destruct (hitTestSource s) as [source|]; [|apply only_heap_refl].
  destruct (getHitTestResults frame source) as [|[matrix|] ?];
    [reflexivity|reflexivity|apply only_heap_refl].
Qed.

Lemma render_only_heap (file : SourceFile) (frame : option XRFrame) (s : ARSpace) :
  only_heap (after_frame frame s) (render file frame s).
Proof.
  unfold render.
  set (s1 := match frame with Some f => _ | None => s end).
  assert (H1 : only_heap (after_frame frame s) s1).
  { subst s1. unfold after_frame. destruct frame as [f|]; [|apply only_heap_refl].
    unfold handleHitTest.
    destruct (non_null (arSession s)); simpl; [|apply only_heap_refl].
    destruct (hitTestSourceRequested s); simpl;
      [apply updateReticle_only_heap|apply only_heap_refl]. }
  set (s2 := fold_left _ _ s1).
  assert (H2 : only_heap (after_frame frame s) s2).
  { eapply only_heap_trans; [exact H1|apply fold_update_object_only_heap]. }
  destruct (model s2) as [m|]; [|done].
  destruct (_ && _); [|done].
  eapply only_heap_trans; [exact H2|apply update_object_only_heap].
Qed.

Lemma handleHitTest_resume_only_heap frame r answers (s : ARSpace) :
  only_heap
    (match r with
     | Resolved source =>
         set_hitTestSourceRequested true (set_hitTestSource (Some source) s)
     | Rejected => s
     end)
    (handleHitTest_resume frame r answers s).
Proof.
  unfold handleHitTest_resume.
  destruct answers; [apply updateReticle_only_heap|apply only_heap_refl].
Qed.

End Fields.

Lemma onSelect_cases (s : ARSpace) :
  onSelect s = s \/
  exists m prototype ret_obj,
    non_null (arSession s) = true /\ reticle_visible s = true /\
    model s = Some m /\ heap s !! m = Some prototype /\
    heap s !! reticle s = Some ret_obj /\
    onSelect s
    = set_placedModels (placedModels s ++ [length (heap s)])
        (set_scene_children (scene_add (length (heap s)) (scene_children s))
           (set_heap (heap s ++ [placed_clone prototype ret_obj]) s)).
Proof.
  unfold onSelect.
  destruct (non_null (arSession s)) eqn:Hsession; simpl; [|by left].
  destruct (reticle_visible s) eqn:Hvisible; simpl; [|by left].
  destruct (model s) as [m|] eqn:Hmodel; [|by left].
  destruct (heap s !! m) as [prototype|] eqn:Hproto; [|by left].
  destruct (heap s !! reticle s) as [ret_obj|] eqn:Hret; [|by left].
  right. exists m, prototype, ret_obj. by repeat split.
Qed.

Lemma onARSessionStart_fields (s : ARSpace) :
  onARSessionStart s
  = set_scene_children (scene_children (onARSessionStart s)) s.
Proof.
  unfold onARSessionStart. destruct (model s); [|by destruct s].
  destruct (includes _ _); by destruct s.
Qed.

Lemma onARSessionEnd_fields (s : ARSpace) :
  onARSessionEnd s
  = set_hitTestSourceRequested false
      (set_hitTestSource None
         (set_placedModels []
            (set_scene_children (scene_children (onARSessionEnd s)) s))).
Proof.
  unfold onARSessionEnd. simpl. destruct (model s); [|by destruct s].
  destruct (includes _ _); by destruct s.
Qed.

Lemma only_heap_proj (s s' : ARSpace) :
  only_heap s s' ->
  scene_children s' = scene_children s /\ model s' = model s /\
  placedModels s' = placedModels s /\ reticle s' = reticle s /\
  hitTestSource s' = hitTestSource s /\
  hitTestSourceRequested s' = hitTestSourceRequested s /\
  arSession s' = arSession s /\ isARSupported s' = isARSupported s /\
  pending s' = pending s /\ requestLog s' = requestLog s.
Proof. unfold only_heap. intros H. rewrite H. by repeat split. Qed.

Lemma after_frame_proj (frame : option XRFrame) (s : ARSpace) :
  scene_children (after_frame frame s) = scene_children s /\
  model (after_frame frame s) = model s /\
  placedModels (after_frame frame s) = placedModels s /\
  reticle (after_frame frame s) = reticle s /\
  hitTestSource (after_frame frame s) = hitTestSource s /\
  hitTestSourceRequested (after_frame frame s) = hitTestSourceRequested s /\
  arSession (after_frame frame s) = arSession s /\
  isARSupported (after_frame frame s) = isARSupported s /\
  heap (after_frame frame s) = heap s.
Proof.
  unfold after_frame. destruct frame; [|by repeat split].
  destruct (_ && _); by repeat split.
Qed.

Section SessionFields.
Context {E : Engine}.

Lemma render_session_fields (file : SourceFile) (frame : option XRFrame) (s : ARSpace) :
  same_session_fields s (render file frame s).
Proof.
  destruct (only_heap_proj _ _ (render_only_heap file frame s))
    as (_ & _ & _ & _ & H1 & H2 & H3 & H4 & _).
  destruct (after_frame_proj frame s) as (_ & _ & _ & _ & G1 & G2 & G3 & G4 & _).
  repeat split; congruence.
Qed.

Lemma onSelect_session_fields (s : ARSpace) : same_session_fields s (onSelect s).
Proof.
  destruct (onSelect_cases s) as [->|(m & p & r & _ & _ & _ & _ & _ & ->)];
    by repeat split.
Qed.

(** No handler writes [isARSupported], and none writes null to [arSession]. *)
Lemma step_isARSupported (file : SourceFile) (e : Event) (s : ARSpace) :
  isARSupported (step file e s) = isARSupported s.
Proof.
  destruct e as [frame|i r answers| |session| |]; simpl.
  - apply render_session_fields.
  - destruct (pending s !! i) as [frame|]; [|done].
    destruct (only_heap_proj _ _ (handleHitTest_resume_only_heap frame r answers
                (set_pending (delete i (pending s)) s)))
      as (_ & _ & _ & _ & _ & _ & _ & -> & _).
    by destruct r.
  - destruct file; simpl; [apply onSelect_session_fields|].
    destruct (non_null (arSession s)); [apply onSelect_session_fields|done].
  - unfold arButton_click, startAR. destruct (isARSupported s) eqn:Hs; simpl; [|done].
    destruct session; [|done]. simpl. by rewrite onARSessionStart_fields.
  - done.
  - by rewrite onARSessionEnd_fields.
Qed.

Lemma step_arSession (file : SourceFile) (e : Event) (s : ARSpace) :
  arSession (step file e s) = arSession s \/
  exists x, e = ARButtonClick (Some x) /\ isARSupported s = true /\
            arSession (step file e s) = Some x.
Proof.
  destruct e as [frame|i r answers| |session| |]; simpl.
  - left. apply render_session_fields.
  - left. destruct (pending s !! i) as [frame|]; [|done].
    destruct (only_heap_proj _ _ (handleHitTest_resume_only_heap frame r answers
                (set_pending (delete i (pending s)) s)))
      as (_ & _ & _ & _ & _ & _ & -> & _).
    by destruct r.
  - left. destruct file; simpl; [apply onSelect_session_fields|].
    destruct (non_null (arSession s)); [apply onSelect_session_fields|done].
  - unfold arButton_click, startAR. destruct (isARSupported s) eqn:Hs; simpl; [|by left].
    destruct session as [x|]; [|by left]. right. by exists x.
  - by left.
  - left. by rewrite onARSessionEnd_fields.
Qed.

Lemma step_reticle (file : SourceFile) (e : Event) (s : ARSpace) :
  reticle (step file e s) = reticle s.
Proof.
  destruct e as [frame|i r answers| |session| |]; simpl.
  - apply render_layout.
  - destruct (pending s !! i) as [frame|]; [|done].
    by destruct (handleHitTest_resume_layout frame r answers
                   (set_pending (delete i (pending s)) s)) as (_ & _ & _ & _ & ->).
  - assert (Hsel : reticle (onSelect s) = reticle s).
    { destruct (onSelect_cases s) as [->|(m & p & r & _ & _ & _ & _ & _ & ->)]; done. }
    destruct file; simpl; [done|]. by destruct (non_null (arSession s)).
  - unfold arButton_click, startAR. destruct (isARSupported s); simpl; [|done].
    destruct session; [|done]. simpl. by rewrite onARSessionStart_fields.
  - done.
  - by rewrite onARSessionEnd_fields.
Qed.

End SessionFields.

(** ** Start-up *)

Lemma init_facts (file : SourceFile) (load : LoadOutcome) (x : XRSupport) (s : ARSpace) :
  init file load x = Returns s ->
  exists m,
    scene_children s = [reticle s; m] /\ model s = Some m /\ m <> reticle s /\
    placedModels s = [] /\ pending s = [] /\ requestLog s = [] /\
    hitTestSource s = None /\ hitTestSourceRequested s = false /\
    arSession s = None /\ isLoading s = false /\
    isARSupported s = match x with XRAnswer b => b | _ => false end.
Proof.
  intros Hinit.
  destruct file, load as [[o|]| |], x as [|b|]; vm_compute in Hinit;
    try discriminate Hinit; injection Hinit as <-; exists 1; by repeat split.
Qed.


Lemma init_idle (file : SourceFile) load x (s : ARSpace) :
  init file load x = Returns s -> idle s /\ placed_ok s /\ arSession s = None.
Proof.
  intros Hinit.
  destruct (init_facts file load x s Hinit)
    as (m & Hscene & Hmodel & Hne & Hp & Hq & Hl & Hsrc & Hflag & Ha & _).
  split; [|split; [|done]].
  - split; try done.
    + by eapply init_reticle_hidden.
    + intros m' Hm'. rewrite Hmodel in Hm'. injection Hm' as <-.
      rewrite Hscene. apply elem_of_cons. right. by apply list_elem_of_singleton.
  - split; rewrite ?Hp.
    + constructor.
    + apply not_elem_of_nil.
    + rewrite Hmodel. congruence.
    + intros p Hin. by apply elem_of_nil in Hin.
    + intros p Hin. by apply elem_of_nil in Hin.
Qed.

(** ** The placed clones *)

Lemma placed_ok_transfer (s s' : ARSpace) :
  same_layout s s' -> objects_kept s s' -> placed_ok s -> placed_ok s'.
Proof.
  intros (_ & Hscene & Hmodel & Hplaced & Hreticle) Hkept [Hnd Hnr Hmr Hin Htag].
  split; rewrite ?Hscene, ?Hmodel, ?Hplaced, ?Hreticle; try done.
  intros p Hp. destruct (Htag p Hp) as (o & m & proto & Ho & Hspeed & Hflag & Hm & Hproto & Hshape).
  destruct (Hkept p o Ho) as (o' & Ho' & (Hs1 & Hs2 & Hs3) & _).
  destruct (Hkept m proto Hproto) as (proto' & Hproto' & (Hp1 & _) & _).
  exists o', m, proto'. repeat split; try done; congruence.
Qed.

Lemma onSelect_placed_ok (s : ARSpace) : wf s -> placed_ok s -> placed_ok (onSelect s).
Proof.
  intros [Hr _ Hp Hs _] [Hnd Hnr Hmr Hin Htag].
  destruct (onSelect_cases s)
    as [->|(m & proto & r & _ & _ & Hmodel & Hproto & Hret & ->)]; [done|].
  assert (Hfresh : length (heap s) ∉ placedModels s).
  { intros Hc. rewrite Forall_forall in Hp. specialize (Hp _ Hc). simpl in Hp. lia. }
  split; simpl.
  - apply NoDup_app. split; [done|]. split; [|apply NoDup_singleton].
    intros p Hp1 Hp2. apply list_elem_of_singleton in Hp2. by subst p.
  - rewrite elem_of_app, list_elem_of_singleton. intros [?|Heq]; [done|lia].
  - done.
  - intros p. rewrite elem_of_app, list_elem_of_singleton. intros [Hp'| ->].
    + unfold scene_add. apply elem_of_app. left.
      apply remove_first_other; [|by apply Hin].
      intros ->. done.
    + apply scene_add_elem_of.
  - intros p. rewrite elem_of_app, list_elem_of_singleton. intros [Hp'| ->].
    + destruct (Htag p Hp') as (o & m' & proto' & Ho & Hspeed & Hflag & Hm' & Hproto' & Hshape).
      exists o, m', proto'. repeat split; try done; by apply lookup_app_l_Some.
    + exists (placed_clone proto r), m, proto.
      split; [apply lookup_new_object|]. repeat split; try done.
      by apply lookup_app_l_Some.
Qed.

Section Invariants.
Context {E : Engine}.

Lemma step_placed_ok (file : SourceFile) (e : Event) (s : ARSpace) :
  wf s -> placed_ok s -> placed_ok (step file e s).
Proof.
  intros Hwf Hok. destruct e as [frame|i r answers| |session| |].
  - eapply placed_ok_transfer; [apply render_layout|apply (step_kept file (Frame frame))|done].
  - eapply placed_ok_transfer; [|apply (step_kept file (Settle i r answers))|done].
    simpl. destruct (pending s !! i) as [frame|]; [|apply same_layout_refl].
    eapply same_layout_trans; [|apply handleHitTest_resume_layout]. by repeat split.
  - simpl. destruct file; simpl; [by apply onSelect_placed_ok|].
    destruct (non_null (arSession s)); [by apply onSelect_placed_ok|done].
  - simpl. unfold arButton_click, startAR. destruct (isARSupported s); simpl; [|done].
    destruct session; [|done].
    destruct Hok as [Hnd Hnr Hmr Hin Htag].
    destruct (wf_model _ Hwf) as (m & Hm & _ & Hnp).
    unfold onARSessionStart. rewrite Hm.
    destruct (includes (scene_children s) m); split; simpl; try done.
    intros p Hp. apply remove_first_other; [|by apply Hin]. by intros ->.
  - done.
  - simpl. destruct Hok as [Hnd Hnr Hmr Hin Htag].
    rewrite onARSessionEnd_fields. split; simpl.
    + constructor.
    + apply not_elem_of_nil.
    + done.
    + intros p Hp. by apply elem_of_nil in Hp.
    + intros p Hp. by apply elem_of_nil in Hp.
Qed.

Lemma reachable_placed_ok (file : SourceFile) (s : ARSpace) :
  reachable file s -> placed_ok s.
Proof.
  induction 1 as [load x s Hinit|e s Hreach IH].
  - by apply (init_idle file load x).
  - apply step_placed_ok; [by eapply reachable_wf|done].
Qed.

Lemma step_idle (file : SourceFile) (e : Event) (s : ARSpace) :
  idle s -> arSession s = None -> arSession (step file e s) = None ->
  idle (step file e s).
Proof.
  intros Hidle Hnone Hnone'. destruct e as [frame|i r answers| |session| |]; simpl in *.
  - assert (Hafter : after_frame frame s = s).
    { unfold after_frame. destruct frame; [|done]. by rewrite Hnone. }
    assert (Hoh := render_only_heap file frame s). rewrite Hafter in Hoh.
    destruct (only_heap_proj _ _ Hoh) as (H1 & H2 & H3 & H4 & H5 & H6 & H7 & H8 & H9 & H10).
    destruct Hidle as [I1 I2 I3 I4 I5 I6 I7].
    split; rewrite ?H1, ?H2, ?H3, ?H5, ?H6, ?H9, ?H10; try done.
    destruct (reticle_visible (render file frame s)) eqn:Hv; [|done].
    apply render_visible in Hv as [Hv|Hv]; [congruence|].
    rewrite I4 in Hv. by destruct Hv.
  - by rewrite (idle_pending _ Hidle).
  - assert (Hsel : onSelect s = s).
    { destruct (onSelect_cases s) as [->|(m & p & r & Hs & _)]; [done|].
      by rewrite Hnone in Hs. }
    destruct file; simpl; rewrite ?Hsel; [done|]. by destruct (non_null (arSession s)).
  - revert Hnone'. unfold arButton_click, startAR.
    destruct (isARSupported s); simpl; [|done]. by destruct session.
  - done.
  - destruct Hidle as [I1 I2 I3 I4 I5 I6 I7]. split.
    + by rewrite onARSessionEnd_fields.
    + by rewrite onARSessionEnd_fields.
    + by rewrite onARSessionEnd_fields.
    + by rewrite onARSessionEnd_fields.
    + by rewrite onARSessionEnd_fields.
    + by rewrite onARSessionEnd_visible.
    + intros m Hm.
      assert (Hm' : model s = Some m) by (by rewrite onARSessionEnd_fields in Hm).
      unfold onARSessionEnd. simpl.
      rewrite Hm'. destruct (includes _ m) eqn:Hinc; simpl.
      * by apply includes_elem_of.
      * apply scene_add_elem_of.
Qed.

Lemma reachable_idle (file : SourceFile) (s : ARSpace) :
  reachable file s -> arSession s = None -> idle s.
Proof.
  induction 1 as [load x s Hinit|e s Hreach IH]; intros Hnone.
  - by apply (init_idle file load x).
  - assert (Hbefore : arSession s = None).
    { destruct (step_arSession file e s) as [Heq|(x & _ & _ & Heq)]; congruence. }
    by apply step_idle; [apply IH| |].
Qed.

End Invariants.

(** ** Lookups in the store across a frame *)

Lemma fold_alter_lookup_notin (f : Object3D -> Object3D) (ps : list ref)
    (h : list Object3D) (p : ref) :
  p ∉ ps -> fold_left (fun h m => alter f m h) ps h !! p = h !! p.
Proof.
  revert h. induction ps as [|q ps IH]; intros h Hp; simpl; [done|].
  apply not_elem_of_cons in Hp as [Hne Hp].
  rewrite IH by done. by apply list_lookup_alter_ne.
Qed.

Lemma fold_alter_lookup_in (f : Object3D -> Object3D) (ps : list ref)
    (h : list Object3D) (p : ref) :
  NoDup ps -> p ∈ ps -> fold_left (fun h m => alter f m h) ps h !! p = f <$> h !! p.
Proof.
  intros Hnd. revert h. induction Hnd as [|q ps Hq Hnd IH]; intros h Hp; simpl.
  - by apply elem_of_nil in Hp.
  - apply elem_of_cons in Hp as [->|Hp].
    + rewrite fold_alter_lookup_notin by done. apply list_lookup_alter_eq.
    + rewrite IH by done. rewrite list_lookup_alter_ne; [done|]. by intros ->.
Qed.

Section Lookups.
Context {E : Engine}.

Lemma updateReticle_lookup_other (frame : XRFrame) (s : ARSpace) (i : ref) :
  i <> reticle s -> heap (updateReticle frame s) !! i = heap s !! i.
Proof.
  intros Hne. unfold updateReticle.
  destruct (hitTestSource s) as [source|]; [|done].
  destruct (getHitTestResults frame source) as [|[matrix|] ?]; simpl;
    by rewrite ?list_lookup_alter_ne.
Qed.

Lemma handleHitTest_lookup_other (frame : XRFrame) (s : ARSpace) (i : ref) :
  i <> reticle s -> heap (handleHitTest frame s) !! i = heap s !! i.
Proof.
  intros Hne. unfold handleHitTest. destruct (hitTestSourceRequested s); simpl; [|done].
  by apply updateReticle_lookup_other.
Qed.

(** The store after [render], object by object: the reticle is as
    [handleHitTest] leaves it, a placed object is spun, the prototype is spun
    when it is in the scene and there is no session. *)
Lemma render_lookup (file : SourceFile) (frame : option XRFrame) (s : ARSpace) (i : ref) :
  i <> reticle s -> NoDup (placedModels s) ->
  heap (render file frame s) !! i
  = (if bool_decide (model s = Some i) && includes (scene_children s) i
        && negb (non_null (arSession s))
     then preview_spin file else id)
    <$> ((if bool_decide (i ∈ placedModels s) then spin else id) <$> heap s !! i).
Proof.
  intros Hne Hnd. unfold render.
  set (s1 := match frame with Some f => _ | None => s end).
  assert (H1 : heap s1 !! i = heap s !! i /\ same_layout s s1 /\ arSession s1 = arSession s).
  { subst s1. destruct frame as [f|]; [|by split; [|split; [apply same_layout_refl|]]].
    destruct (non_null (arSession s)); [|by split; [|split; [apply same_layout_refl|]]].
    split; [by apply handleHitTest_lookup_other|]. split; [apply handleHitTest_layout|].
    unfold handleHitTest. destruct (hitTestSourceRequested s); simpl; [|done].
    by destruct (only_heap_proj _ _ (updateReticle_only_heap f s))
      as (_ & _ & _ & _ & _ & _ & -> & _). }
  destruct H1 as (Hl1 & (_ & Hsc & Hmo & Hpl & _) & Has).
  rewrite fold_update_object. simpl. rewrite Hmo, Hsc, Has, Hpl.
  assert (Hfold : fold_left (fun h m => alter spin m h) (placedModels s) (heap s1) !! i
                  = (if bool_decide (i ∈ placedModels s) then spin else id) <$> heap s !! i).
  { case_bool_decide as Hin.
    - by rewrite fold_alter_lookup_in, Hl1.
    - rewrite fold_alter_lookup_notin, Hl1 by done. by destruct (heap s !! i). }
  destruct (model s) as [m|] eqn:Hmodel.
  - destruct (includes (scene_children s) m) eqn:Hinc; simpl;
      [destruct (non_null (arSession s)) eqn:Hsess; simpl|].
    + rewrite Hfold, andb_false_r. simpl. by destruct (_ <$> heap s !! i).
    + rewrite list_lookup_alter. destruct (decide (m = i)) as [->|Hmi].
      * rewrite (bool_decide_eq_true_2 (Some i = Some i)) by done.
        rewrite Hinc. simpl. by rewrite Hfold.
      * rewrite (bool_decide_eq_false_2 (Some m = Some i)) by congruence.
        simpl. rewrite Hfold.
        by destruct (_ <$> heap s !! i).
    + rewrite Hfold. destruct (decide (m = i)) as [->|Hmi].
      * rewrite (bool_decide_eq_true_2 (Some i = Some i)) by done. rewrite Hinc. simpl.
        by destruct (_ <$> heap s !! i).
      * rewrite (bool_decide_eq_false_2 (Some m = Some i)) by congruence. simpl.
        by destruct (_ <$> heap s !! i).
  - simpl. rewrite Hfold. by destruct (_ <$> heap s !! i).
Qed.

End Lookups.

(** ** Runs *)

Section Runs.
Context {E : Engine}.

Lemma run_reticle (file : SourceFile) (events : list Event) (s : ARSpace) :
  reticle (run file events s) = reticle s.
Proof.
  revert s. induction events as [|e events IH]; intros s; [done|].
  change (reticle (run file events (step file e s)) = reticle s).
  by rewrite IH, step_reticle.
Qed.

Lemma run_kept (file : SourceFile) (events : list Event) (s : ARSpace) :
  objects_kept s (run file events s).
Proof.
  revert s. induction events as [|e events IH]; intros s; simpl.
  - apply objects_kept_refl.
  - eapply objects_kept_trans; [|apply (step_kept file e)|apply IH].
    apply step_reticle.
Qed.

Lemma run_arSession_set (file : SourceFile) (events : list Event) (s : ARSpace) :
  arSession s <> None -> arSession (run file events s) <> None.
Proof.
  revert s. induction events as [|e events IH]; intros s Hs; simpl; [done|].
  apply IH. destruct (step_arSession file e s) as [->|(x & _ & _ & ->)]; done.
Qed.

Lemma run_without_support (file : SourceFile) (events : list Event) (s : ARSpace) :
  isARSupported s = false -> arSession s = None ->
  arSession (run file events s) = None.
Proof.
  revert s. induction events as [|e events IH]; intros s Hsup Hs; simpl; [done|].
  apply IH; [by rewrite step_isARSupported|].
  destruct (step_arSession file e s) as [->|(x & _ & Hsup' & _)]; [done|congruence].
Qed.

Lemma step_hit_fields (file : SourceFile) (e : Event) (s : ARSpace) :
  (hitTestSource (step file e s) = hitTestSource s /\
   hitTestSourceRequested (step file e s) = hitTestSourceRequested s) \/
  (e = SessionEnd /\ hitTestSource (step file e s) = None /\
   hitTestSourceRequested (step file e s) = false) \/
  (exists i frame source answers,
     e = Settle i (Resolved source) answers /\ pending s !! i = Some frame /\
     hitTestSource (step file e s) = Some source /\
     hitTestSourceRequested (step file e s) = true).
Proof.
  destruct e as [frame|i r answers| |session| |]; simpl.
  - left. split; apply render_session_fields.
  - destruct (pending s !! i) as [frame|] eqn:Hp; [|by left].
    destruct (only_heap_proj _ _ (handleHitTest_resume_only_heap frame r answers
                (set_pending (delete i (pending s)) s)))
      as (_ & _ & _ & _ & -> & -> & _).
    destruct r as [source|]; [|by left].
    right. right. by exists i, frame, source, answers.
  - left. destruct file; simpl; [split; apply onSelect_session_fields|].
    destruct (non_null (arSession s)); [split; apply onSelect_session_fields|done].
  - left. unfold arButton_click, startAR. destruct (isARSupported s); simpl; [|done].
    destruct session; [|done]. simpl. by rewrite onARSessionStart_fields.
  - by left.
  - right. left. by rewrite onARSessionEnd_fields.
Qed.

Lemma reachable_source_flag (file : SourceFile) (s : ARSpace) :
  reachable file s -> hitTestSource s <> None -> hitTestSourceRequested s = true.
Proof.
  induction 1 as [load x s Hinit|e s Hreach IH].
  - destruct (init_facts file load x s Hinit) as (m & H).
    destruct H as (_ & _ & _ & _ & _ & _ & -> & _). done.
  - destruct (step_hit_fields file e s)
      as [[-> ->]|[(_ & -> & _)|(i & f & src & a & _ & _ & _ & ->)]]; done.
Qed.

End Runs.

Lemma model_placed_reachable : reachable (E:=sample_engine) app_js model_placed.
Proof. unfold model_placed. apply run_reachable, reticle_shown_reachable. Qed.

Lemma in_session_reachable : reachable (E:=sample_engine) app_js in_session.
Proof. unfold in_session. apply run_reachable, booted_reachable. Qed.

(** ** Start-up and support *)



(** X2. On a device where the support check did not answer true, no sequence
    of events starts a session: [arSession] stays null, no hit-test source is
    requested or held, nothing is placed and the reticle stays hidden. *)
Theorem no_session_without_support {E : Engine} (file : SourceFile)
    (load : LoadOutcome) (x : XRSupport) (s0 : ARSpace) (events : list Event) :
  init file load x = Returns s0 ->
  x <> XRAnswer true ->
  arSession (run file events s0) = None /\
  requestLog (run file events s0) = [] /\
  hitTestSource (run file events s0) = None /\
  placedModels (run file events s0) = [] /\
  reticle_visible (run file events s0) = false.
Proof.
  intros Hinit Hx.
  destruct (init_facts file load x s0 Hinit) as (m & H).
  destruct H as (_ & _ & _ & _ & _ & _ & _ & _ & Ha & _ & Hsup).
  assert (Hsup' : isARSupported s0 = false).
  { rewrite Hsup. destruct x as [|[|]|]; congruence. }
  assert (Hnone := run_without_support file events s0 Hsup' Ha).
  assert (Hreach : reachable file (run file events s0)).
  { apply run_reachable. by apply (reachable_init file load x). }
  destruct (reachable_idle _ _ Hreach Hnone) as [I1 I2 I3 I4 I5 I6 I7].
  by repeat split.
Qed.

Lemma no_session_without_support_witness :
  let events := [ARButtonClick (Some 7); Frame (Some (frame_hit 7)); CanvasClick] in
  let s0 := checkARSupport XRFailure booted in
  init app_js LoadRejected XRFailure = Returns s0 /\
  XRFailure <> XRAnswer true /\
  arSession (run (E:=sample_engine) app_js events s0) = None /\
  requestLog (run (E:=sample_engine) app_js events s0) = [] /\
  hitTestSource (run (E:=sample_engine) app_js events s0) = None /\
  placedModels (run (E:=sample_engine) app_js events s0) = [] /\
  reticle_visible (run (E:=sample_engine) app_js events s0) = false.
Proof.
  intros events s0. split; [reflexivity|]. split; [discriminate|].
  apply (no_session_without_support (E:=sample_engine) app_js LoadRejected XRFailure
           s0 events); [reflexivity|discriminate].
Defined.

(** ** Frames *)

(** X3. Until a session has been started, a frame does one thing: it spins
    the prototype, which is in the scene, by 0.01 (part_000: by its own
    [rotationSpeed] when it has one).  No other field and no other object
    changes. *)
Theorem render_before_first_session {E : Engine} (file : SourceFile)
    (frame : option XRFrame) (s : ARSpace) :
  reachable file s ->
  arSession s = None ->
  exists m,
    model s = Some m /\ m ∈ scene_children s /\
    render file frame s = update_object m (preview_spin file) s.
Proof.
  intros Hreach Hnone.
  destruct (reachable_idle _ _ Hreach Hnone) as [I1 _ _ _ _ _ I7].
  destruct (wf_model _ (reachable_wf _ _ Hreach)) as (m & Hm & _).
  exists m. split; [done|]. split; [by apply I7|].
  unfold render. rewrite Hnone. simpl.
  assert (Hs1 : match frame with Some _ => s | None => s end = s) by (by destruct frame).
  rewrite Hs1, I1. simpl. rewrite Hm, Hnone.
  by rewrite (proj2 (includes_elem_of _ _) (I7 m Hm)).
Qed.

Lemma render_before_first_session_witness :
  exists m,
    model booted = Some m /\ m ∈ scene_children booted /\
    render (E:=sample_engine) app_js None booted
    = update_object m (preview_spin (E:=sample_engine) app_js) booted.
Proof.
  apply (render_before_first_session (E:=sample_engine) app_js None booted).
  - apply booted_reachable.
  - reflexivity.
Defined.

(** X4. No handler writes null to [arSession]: once a session has been
    started the field stays set through every later event, 'sessionend'
    included.  And while it is set, [render] leaves the prototype as it is:
    the preview rotation does not come back. *)
Theorem session_handle_kept {E : Engine} (file : SourceFile) (s : ARSpace)
    (x : XRSession) :
  reachable file s ->
  arSession s = Some x ->
  (forall events, arSession (run file events s) <> None) /\
  exists m o,
    model s = Some m /\ heap s !! m = Some o /\
    forall frame, heap (render file frame s) !! m = Some o.
Proof.
  intros Hreach Hsession.
  split; [intros events; apply run_arSession_set; congruence|].
  assert (Hwf := reachable_wf _ _ Hreach).
  destruct (reachable_placed_ok _ _ Hreach) as [Hnd _ Hmr _ _].
  destruct (wf_model _ Hwf) as (m & Hm & Hlt & Hnp).
  destruct (lookup_lt_is_Some_2 (heap s) m Hlt) as [o Ho].
  exists m, o. split; [done|]. split; [done|]. intros frame.
  rewrite render_lookup; [|congruence|done].
  rewrite Hsession, andb_false_r. simpl.
  rewrite bool_decide_eq_false_2 by done. by rewrite Ho.
Qed.

Lemma session_handle_kept_witness :
  (forall events, arSession (run (E:=sample_engine) app_js events in_session) <> None) /\
  exists m o,
    model in_session = Some m /\ heap in_session !! m = Some o /\
    forall frame, heap (render (E:=sample_engine) app_js frame in_session) !! m = Some o.
Proof.
  apply (session_handle_kept (E:=sample_engine) app_js in_session 7).
  - apply in_session_reachable.
  - reflexivity.
Defined.

(** X5. Each frame turns every placed model once, by its [rotationSpeed]
    0.01, and changes nothing else of it. *)
Theorem render_spins_placed_once {E : Engine} (file : SourceFile)
    (frame : option XRFrame) (s : ARSpace) (p : ref) :
  reachable file s ->
  p ∈ placedModels s ->
  exists o,
    heap s !! p = Some o /\
    heap (render file frame s) !! p = Some (rotateY 0.01%Q o).
Proof.
  intros Hreach Hp.
  destruct (reachable_placed_ok _ _ Hreach) as [Hnd Hnr _ _ Htag].
  destruct (wf_model _ (reachable_wf _ _ Hreach)) as (m & Hm & _ & Hnp).
  destruct (Htag p Hp) as (o & _ & _ & Ho & Hspeed & _).
  exists o. split; [done|].
  rewrite render_lookup; [|by intros ->|done].
  rewrite (bool_decide_eq_false_2 (model s = Some p)); [|rewrite Hm; by intros [= ->]].
  rewrite (bool_decide_eq_true_2 (p ∈ placedModels s)) by done.
  rewrite Ho. simpl. unfold spin. by rewrite Hspeed.
Qed.

Lemma render_spins_placed_once_witness :
  exists o,
    heap model_placed !! 2 = Some o /\
    heap (render (E:=sample_engine) app_js (Some (frame_hit 7)) model_placed) !! 2
    = Some (rotateY (E:=sample_engine) 0.01%Q o).
Proof.
  apply (render_spins_placed_once (E:=sample_engine) app_js (Some (frame_hit 7))
           model_placed 2).
  - apply model_placed_reachable.
  - apply list_elem_of_singleton. reflexivity.
Defined.

(** ** Placed models *)

(** X6. A placed model keeps its position, visibility, shape and [userData]
    through every later event, frames and the end of the session included;
    only its orientation changes. *)
Theorem placed_model_stays_put {E : Engine} (file : SourceFile) (s : ARSpace)
    (p : ref) (o : Object3D) (events : list Event) :
  reachable file s ->
  p ∈ placedModels s ->
  heap s !! p = Some o ->
  exists o', heap (run file events s) !! p = Some o' /\ same_but_orientation o o'.
Proof.
  intros Hreach Hp Ho.
  destruct (run_kept file events s p o Ho) as (o' & Ho' & _ & Hkept).
  exists o'. split; [done|]. apply Hkept.
  intros ->. by apply (placed_not_reticle _ (reachable_placed_ok _ _ Hreach)).
Qed.

Lemma placed_model_stays_put_witness :
  let events := [Frame (Some (frame_empty 7)); SessionEnd; Frame None] in
  exists o o',
    heap model_placed !! 2 = Some o /\
    heap (run (E:=sample_engine) app_js events model_placed) !! 2 = Some o' /\
    same_but_orientation o o'.
Proof.
  intros events.
  destruct (heap model_placed !! 2) as [o|] eqn:Ho; [|discriminate Ho].
  destruct (placed_model_stays_put (E:=sample_engine) app_js model_placed 2 o events)
    as (o' & Ho' & Hkept).
  - apply model_placed_reachable.
  - apply list_elem_of_singleton. reflexivity.
  - exact Ho.
  - exists o, o'. split; [reflexivity|]. split; [exact Ho'|exact Hkept].
Defined.

(** X7. In every state the program can reach the placed models are pairwise
    distinct objects, none of them the reticle or the prototype; each is a
    child of the scene, has the shape of the prototype and carries
    [rotationSpeed] 0.01 and [isPlaced]. *)
Theorem placed_models_invariant {E : Engine} (file : SourceFile) (s : ARSpace) :
  reachable file s ->
  NoDup (placedModels s) /\
  forall p, p ∈ placedModels s ->
    p ∈ scene_children s /\ p <> reticle s /\ model s <> Some p /\
    exists o m prototype,
      heap s !! p = Some o /\ rotationSpeed o = Some 0.01%Q /\ isPlaced o = true /\
      model s = Some m /\ heap s !! m = Some prototype /\ shape o = shape prototype.
Proof.
  intros Hreach.
  destruct (reachable_placed_ok _ _ Hreach) as [Hnd Hnr _ Hin Htag].
  destruct (wf_model _ (reachable_wf _ _ Hreach)) as (m & Hm & _ & Hnp).
  split; [done|]. intros p Hp.
  split; [by apply Hin|]. split; [by intros ->|].
  split; [rewrite Hm; by intros [= ->]|]. by apply Htag.
Qed.

Lemma placed_models_invariant_witness :
  NoDup (placedModels model_placed) /\
  forall p, p ∈ placedModels model_placed ->
    p ∈ scene_children model_placed /\ p <> reticle model_placed /\
    model model_placed <> Some p /\
    exists o m prototype,
      heap model_placed !! p = Some o /\ rotationSpeed o = Some 0.01%Q /\
      isPlaced o = true /\ model model_placed = Some m /\
      heap model_placed !! m = Some prototype /\ shape o = shape prototype.
Proof.
  apply (placed_models_invariant (E:=sample_engine) app_js model_placed).
  apply model_placed_reachable.
Defined.

(** ** The hit-test fields *)

(** X8. Whenever a hit-test source is held the flag is set, so a frame sends
    no request and suspends no call. *)
Theorem no_request_while_source_held {E : Engine} (file : SourceFile) (s : ARSpace)
    (source : XRHitTestSource) :
  reachable file s ->
  hitTestSource s = Some source ->
  hitTestSourceRequested s = true /\
  forall frame,
    requestLog (render file frame s) = requestLog s /\
    pending (render file frame s) = pending s.
Proof.
  intros Hreach Hsource.
  assert (Hflag : hitTestSourceRequested s = true).
  { apply (reachable_source_flag file); [done|congruence]. }
  split; [done|]. intros frame.
  destruct (only_heap_proj _ _ (render_only_heap file frame s))
    as (_ & _ & _ & _ & _ & _ & _ & _ & -> & ->).
  unfold after_frame. destruct frame; [|done].
  by rewrite Hflag, andb_false_r.
Qed.

Lemma no_request_while_source_held_witness :
  hitTestSourceRequested reticle_shown = true /\
  forall frame,
    requestLog (render (E:=sample_engine) app_js frame reticle_shown)
    = requestLog reticle_shown /\
    pending (render (E:=sample_engine) app_js frame reticle_shown)
    = pending reticle_shown.
Proof.
  apply (no_request_while_source_held (E:=sample_engine) app_js reticle_shown 3).
  - apply reticle_shown_reachable.
  - reflexivity.
Defined.


(** X10. A request for a hit-test source is sent by a frame only, one per
    frame, and only with a session in [arSession] and the flag unset; no
    other event sends one, and none is ever taken back. *)
Theorem requests_only_from_frames {E : Engine} (file : SourceFile) (e : Event)
    (s : ARSpace) :
  requestLog (step file e s) = requestLog s \/
  exists frame x,
    e = Frame (Some frame) /\ arSession s = Some x /\
    hitTestSourceRequested s = false /\
    requestLog (step file e s) = requestLog s ++ [frame_session frame].
Proof.
  destruct e as [frame|i r answers| |session| |]; simpl.
  - destruct (only_heap_proj _ _ (render_only_heap file frame s))
      as (_ & _ & _ & _ & _ & _ & _ & _ & _ & ->).
    unfold after_frame. destruct frame as [f|]; [|by left].
    destruct (arSession s) as [x|] eqn:Hsession; simpl; [|by left].
    destruct (hitTestSourceRequested s) eqn:Hflag; simpl; [by left|].
    right. by exists f, x.
  - left. destruct (pending s !! i) as [frame|]; [|done].
    destruct (only_heap_proj _ _ (handleHitTest_resume_only_heap frame r answers
                (set_pending (delete i (pending s)) s)))
      as (_ & _ & _ & _ & _ & _ & _ & _ & _ & ->).
    by destruct r.
  - left.
    assert (Hsel : requestLog (onSelect s) = requestLog s).
    { by destruct (onSelect_cases s) as [->|(m & p & r & _ & _ & _ & _ & _ & ->)]. }
    destruct file; simpl; [done|]. by destruct (non_null (arSession s)).
  - left. unfold arButton_click, startAR. destruct (isARSupported s); simpl; [|done].
    destruct session; [|done]. simpl. by rewrite onARSessionStart_fields.
  - by left.
  - left. by rewrite onARSessionEnd_fields.
Qed.

(** ** Starting a session *)

(** X11. Starting a session on a supported device stores the session in
    [arSession] and takes the prototype, and nothing else, out of the scene;
    the store, the placed models and the hit-test fields are untouched. *)
Theorem startAR_hides_prototype {E : Engine} (file : SourceFile) (s : ARSpace)
    (x : XRSession) :
  reachable file s ->
  isARSupported s = true ->
  arSession (step file (ARButtonClick (Some x)) s) = Some x /\
  heap (step file (ARButtonClick (Some x)) s) = heap s /\
  placedModels (step file (ARButtonClick (Some x)) s) = placedModels s /\
  hitTestSource (step file (ARButtonClick (Some x)) s) = hitTestSource s /\
  exists m,
    model (step file (ARButtonClick (Some x)) s) = Some m /\
    (m ∉ scene_children (step file (ARButtonClick (Some x)) s)) /\
    forall c, c <> m ->
      (c ∈ scene_children (step file (ARButtonClick (Some x)) s) <-> c ∈ scene_children s).
Proof.
  intros Hreach Hsup.
  assert (Hwf := reachable_wf _ _ Hreach).
  destruct (wf_model _ Hwf) as (m & Hm & _).
  simpl. unfold arButton_click, startAR. rewrite Hsup. simpl.
  rewrite onARSessionStart_fields. simpl.
  do 4 (split; [done|]). exists m. split; [done|].
  unfold onARSessionStart. rewrite Hm.
  destruct (includes (scene_children s) m) eqn:Hinc; simpl.
  - split; [apply remove_first_gone, (wf_nodup _ Hwf)|].
    intros c Hc. split; [apply remove_first_elem_of|by apply remove_first_other].
  - split; [by apply includes_false|done].
Qed.

Lemma startAR_hides_prototype_witness :
  arSession (step (E:=sample_engine) app_js (ARButtonClick (Some 7)) booted) = Some 7 /\
  heap (step (E:=sample_engine) app_js (ARButtonClick (Some 7)) booted) = heap booted /\
  placedModels (step (E:=sample_engine) app_js (ARButtonClick (Some 7)) booted)
  = placedModels booted /\
  hitTestSource (step (E:=sample_engine) app_js (ARButtonClick (Some 7)) booted)
  = hitTestSource booted /\
  exists m,
    model (step (E:=sample_engine) app_js (ARButtonClick (Some 7)) booted) = Some m /\
    (m ∉ scene_children (step (E:=sample_engine) app_js (ARButtonClick (Some 7)) booted)) /\
    forall c, c <> m ->
      (c ∈ scene_children (step (E:=sample_engine) app_js (ARButtonClick (Some 7)) booted)
       <-> c ∈ scene_children booted).
Proof.
  apply (startAR_hides_prototype (E:=sample_engine) app_js booted 7).
  - apply booted_reachable.
  - reflexivity.
Defined.

(** ** The pose of the reticle *)



(** ** Two confirmations, and a session without one *)

Lemma onSelect_effect (s : ARSpace) (x : XRSession) :
  wf s -> arSession s = Some x -> reticle_visible s = true ->
  exists m prototype r,
    model s = Some m /\ heap s !! m = Some prototype /\
    heap s !! reticle s = Some r /\
    onSelect s
    = set_placedModels (placedModels s ++ [length (heap s)])
        (set_scene_children (scene_children s ++ [length (heap s)])
           (set_heap (heap s ++ [placed_clone prototype r]) s)).
Proof.
  intros [Hr (m & Hm & Hlt & _) _ Hs _] Hsession Hvisible.
  destruct (lookup_lt_is_Some_2 (heap s) m Hlt) as [prototype Hproto].
  destruct (lookup_lt_is_Some_2 (heap s) (reticle s) Hr) as [r Hret].
  exists m, prototype, r. do 3 (split; [done|]).
  unfold onSelect. rewrite Hsession, Hvisible, Hm, Hproto, Hret. simpl.
  rewrite scene_add_new; [done|].
  intros Hin. rewrite Forall_forall in Hs. specialize (Hs _ Hin). simpl in Hs. lia.
Qed.

(** X13. Two confirmations in a row, the reticle not moving in between,
    place two clones: two new objects at the end of the store, both at the
    reticle's pose, appended in order to [placedModels] and to the scene. *)
Theorem onSelect_twice {E : Engine} (file : SourceFile) (s : ARSpace) (x : XRSession) :
  reachable file s ->
  arSession s = Some x ->
  reticle_visible s = true ->
  exists prototype r,
    heap s !! reticle s = Some r /\
    heap (onSelect (onSelect s))
    = heap s ++ [placed_clone prototype r; placed_clone prototype r] /\
    placedModels (onSelect (onSelect s))
    = placedModels s ++ [length (heap s); S (length (heap s))] /\
    scene_children (onSelect (onSelect s))
    = scene_children s ++ [length (heap s); S (length (heap s))] /\
    position (placed_clone prototype r) = position r /\
    quaternion (placed_clone prototype r) = quaternion r.
Proof.
  intros Hreach Hsession Hvisible.
  assert (Hwf := reachable_wf _ _ Hreach).
  destruct (onSelect_effect s x Hwf Hsession Hvisible)
    as (m & prototype & r & Hm & Hproto & Hret & Hsel).
  assert (Hwf1 := onSelect_wf s Hwf).
  assert (Hsession1 : arSession (onSelect s) = Some x) by (by rewrite Hsel).
  assert (Hret1 : heap (onSelect s) !! reticle (onSelect s) = Some r).
  { rewrite Hsel. simpl. by apply lookup_app_l_Some. }
  assert (Hvisible1 : reticle_visible (onSelect s) = true).
  { unfold reticle_visible in *. rewrite Hret1. by rewrite Hret in Hvisible. }
  destruct (onSelect_effect (onSelect s) x Hwf1 Hsession1 Hvisible1)
    as (m1 & prototype1 & r1 & Hm1 & Hproto1 & Hret1' & Hsel1).
  assert (r1 = r) by congruence. subst r1.
  assert (m1 = m) by (rewrite Hsel in Hm1; simpl in Hm1; congruence). subst m1.
  assert (prototype1 = prototype).
  { rewrite Hsel in Hproto1. simpl in Hproto1.
    rewrite (lookup_app_l_Some _ _ _ _ Hproto) in Hproto1. congruence. }
  subst prototype1.
  exists prototype, r. split; [done|].
  rewrite Hsel1. rewrite Hsel. simpl. rewrite length_app. simpl.
  rewrite <- !app_assoc. simpl.
  replace (length (heap s) + 1) with (S (length (heap s))) by lia.
  by repeat split.
Qed.

Lemma onSelect_twice_witness :
  exists prototype r,
    heap reticle_shown !! reticle reticle_shown = Some r /\
    heap (onSelect (onSelect reticle_shown))
    = heap reticle_shown ++ [placed_clone prototype r; placed_clone prototype r] /\
    placedModels (onSelect (onSelect reticle_shown))
    = placedModels reticle_shown
      ++ [length (heap reticle_shown); S (length (heap reticle_shown))] /\
    scene_children (onSelect (onSelect reticle_shown))
    = scene_children reticle_shown
      ++ [length (heap reticle_shown); S (length (heap reticle_shown))] /\
    position (placed_clone prototype r) = position r /\
    quaternion (placed_clone prototype r) = quaternion r.
Proof.
  apply (onSelect_twice (E:=sample_engine) app_js reticle_shown 7).
  - apply reticle_shown_reachable.
  - reflexivity.
  - reflexivity.
Defined.



